(** * flat-lands: the PPO training core and the policy-composition layer

    A shallow embedding of [reinforcement_learning/ppo_agent.py] and
    [reinforcement_learning/multi_policy.py].

    Conventions of the embedding.
    - Python floats are finite binary fractions, hence rationals: they are
      typed [Q].  The arithmetic the source writes out itself (the discounted
      return) is exact rational arithmetic here; everything the numeric
      library computes (forward passes, log-probabilities, standardisation,
      gradient steps) is a field of the [Torch] interface below and is never
      unfolded.
    - A Python [dict] is a [gmap]; the file system is a [gmap] from paths to
      file contents; [print] appends a line to the console.
    - A method that mutates [self] takes the object and returns the new one.
      An exception of a library call is an explicit outcome of that call
      ([Raised], [StepRaised], or [None] for [torch.load]).  A method in
      which such an exception can escape ([train_net], [end_episode]) returns
      an [Outcome]: the object as the call left it, and whether the call
      returned or raised.  A Rocq function that returns a plain value models
      a Python call that returns normally. *)

From Stdlib Require Import QArith Qpower.
From stdpp Require Import gmap strings list fin_maps.

Open Scope string_scope.
Open Scope list_scope.

(** ** The numeric library, as an interface *)

(** Outcome of a library call that mutates an object in place and may raise:
    either way the object is left in some state. *)
Inductive Outcome (O : Type) : Type :=
  | Returned (o : O)
  | Raised (o : O).
Arguments Returned {O} o.
Arguments Raised {O} o.

(** The object a call has left, whether it returned or raised. *)
Definition outcome_obj {O : Type} (r : Outcome O) : O :=
  match r with Returned o => o | Raised o => o end.

(** Sequencing of statements: what follows a statement that raised is not
    run. *)
Definition and_then {O : Type} (r : Outcome O) (f : O -> Outcome O)
  : Outcome O :=
  match r with Returned o => f o | Raised o => Raised o end.

(** Outcome of one gradient step on two networks and an optimiser: it
    returns with the mean loss, or raises; either way networks and optimiser
    are left in some state. *)
Inductive StepOutcome (N O : Type) : Type :=
  | StepReturned (actor critic : N) (opt : O) (loss : Q)
  | StepRaised (actor critic : N) (opt : O).
Arguments StepReturned {N O} actor critic opt loss.
Arguments StepRaised {N O} actor critic opt.

(** The lists [_convert_transitions_to_torch_tensors] builds, in the order of
    its return statement. *)
Record Batch : Type := mkBatch {
  states : list (list Q);
  actions : list Z;
  rewards : list Q;
  states_next : list (list Q);
  dones : list Q;
  prob_actions : list Q
}.

(** The layers the source stacks in [nn.Sequential]. *)
Inductive Layer : Type :=
  | Linear (in_features out_features : nat)
  | Tanh
  | Softmax.

Class Torch : Type := {
  (** an [nn.Sequential] network *)
  Net : Type;
  (** an [optim.Adam] optimiser *)
  Optimizer : Type;
  (** what [state_dict()] returns *)
  StateDict : Type;
  (** the content of a file *)
  Blob : Type;
  (** the state of the global random generator *)
  Rng : Type;
  (** a [Categorical] distribution *)
  Categorical : Type;

  (** [nn.Sequential(...)]: the initial weights are drawn from the generator *)
  Sequential : list Layer -> Rng -> Net * Rng;
  net_arch : Net -> list Layer;
  (** [optim.Adam(model.parameters(), lr=...)] over both networks *)
  Adam : Net -> Net -> Q -> Optimizer;

  (** [torch.save] serialises, [torch.load] parses or raises ([None]) *)
  torch_save : StateDict -> Blob;
  torch_load : Blob -> option StateDict;

  net_state_dict : Net -> StateDict;
  net_load_state_dict : Net -> StateDict -> Outcome Net;
  opt_state_dict : Optimizer -> StateDict;
  opt_load_state_dict : Optimizer -> StateDict -> Outcome Optimizer;

  (** [Categorical(net(state))] *)
  net_dist : Net -> list Q -> Categorical;
  dist_sample : Categorical -> Rng -> Z * Rng;
  dist_log_prob : Categorical -> Z -> Q;

  (** [(rewards - rewards.mean()) / (rewards.std() + 1.e-5)] *)
  standardize : list Q -> list Q;

  (** one gradient step of [train_net] (evaluate, ratios, clipped surrogate,
      loss, [zero_grad], [backward], [optimizer.step]); it returns the two
      networks, the optimiser and [loss.mean()], or one of its calls raises *)
  gradient_step :
    Q (* surrogate_eps_clip *) -> Q (* weight_loss *) -> Q (* weight_entropy *) ->
    Net -> Net -> Optimizer -> Batch -> StepOutcome Net Optimizer
}.

(** Objects with [state_dict] / [load_state_dict]: networks and optimisers. *)
Class HasStateDict `{Torch} (O : Type) : Type := {
  state_dict : O -> StateDict;
  load_state_dict : O -> StateDict -> Outcome O
}.

#[export] Instance Net_HasStateDict `{Torch} : HasStateDict Net :=
  {| state_dict := net_state_dict; load_state_dict := net_load_state_dict |}.

#[export] Instance Optimizer_HasStateDict `{Torch} : HasStateDict Optimizer :=
  {| state_dict := opt_state_dict; load_state_dict := opt_load_state_dict |}.

(** ** The world outside the agent: files, console, random generator *)

Record World `{Torch} : Type := mkWorld {
  fs : gmap string Blob;
  console : list string;
  rng : Rng
}.

Section WorldOps.
Context `{Torch}.

Definition print (line : string) (w : World) : World :=
  {| fs := fs w; console := console w ++ [line]; rng := rng w |}.

(** [torch.save(sd, path)] *)
Definition save_file (path : string) (sd : StateDict) (w : World) : World :=
  {| fs := <[path := torch_save sd]> (fs w); console := console w; rng := rng w |}.

Definition with_rng (g : Rng) (w : World) : World :=
  {| fs := fs w; console := console w; rng := g |}.
End WorldOps.

(** ** Transitions *)

(** [(state, action, reward, next_state, action_logprobs.item(), done)] *)
Record Transition : Type := mkTransition {
t_state : list Q;
t_action : Z;
t_reward : Q;
t_next_state : list Q;
t_logprob : Q;
t_done : bool
}.

(** ** class DataBuffers *)

Module DataBuffers.

Record t : Type := mk { memory : gmap Z (list Transition) }.

Definition reset (self : t) : t := {| memory := ∅ |}.

(** [__init__] calls [reset] *)
Definition init : t := {| memory := ∅ |}.

(** [__len__] *)
Definition len (self : t) : nat := size (memory self).

Definition get_transitions (self : t) (handle : Z) : list Transition :=
  default [] (memory self !! handle).

Definition push_transition (self : t) (handle : Z) (transition : Transition) : t :=
  let transitions := get_transitions self handle in
  let transitions := transitions ++ [transition] in
  {| memory := <[handle := transitions]> (memory self) |}.

End DataBuffers.

(** ** class ActorCriticModel *)

Module ActorCriticModel.
Section WithTorch.
Context `{Torch}.

Record t : Type := mk { actor : Net; critic : Net }.

(** [__init__(state_size, action_size, hidsize1=128, hidsize2=128)] *)
Definition init (state_size action_size hidsize1 hidsize2 : nat) (w : World)
  : t * World :=
  let '(actor, g) :=
    Sequential [Linear state_size hidsize1; Tanh;
                Linear hidsize1 hidsize2; Tanh;
                Linear hidsize2 action_size; Softmax] (rng w) in
  let '(critic, g) :=
    Sequential [Linear state_size hidsize1; Tanh;
                Linear hidsize1 hidsize2; Tanh;
                Linear hidsize2 1] g in
  ({| actor := actor; critic := critic |}, with_rng g w).

Definition get_actor_dist (self : t) (state : list Q) : Categorical :=
  net_dist (actor self) state.

Definition save (self : t) (filename : string) (w : World) : World :=
  let w := save_file (filename +:+ ".actor") (net_state_dict (actor self)) w in
  save_file (filename +:+ ".value") (net_state_dict (critic self)) w.

(** [_load(obj, filename)].  Both library calls sit inside the [try]; the
    bare [except] catches whatever they raise. *)
Definition _load {O : Type} `{!HasStateDict O} (obj : O) (filename : string)
    (w : World) : O * World :=
  match fs w !! filename with
  | Some blob =>
      let w := print (" >>  " +:+ filename) w in
      match torch_load blob with
      | Some sd =>
          match load_state_dict obj sd with
          | Returned obj => (obj, w)
          | Raised obj => (obj, print " >> failed!" w)
          end
      | None => (obj, print " >> failed!" w)
      end
  | None => (obj, w)
  end.

Definition load (self : t) (filename : string) (w : World) : t * World :=
  let w := print ("load policy from file " +:+ filename) w in
  let '(a, w) := _load (actor self) (filename +:+ ".actor") w in
  let '(c, w) := _load (critic self) (filename +:+ ".critic") w in
  ({| actor := a; critic := c |}, w).

End WithTorch.
End ActorCriticModel.

(** ** class PPOAgent *)

Module PPOAgent.
Section WithTorch.
Context `{Torch}.

(** The fields [__init__] sets.  [loss_function] ([nn.SmoothL1Loss()]) has no
    state and lives inside [gradient_step]. *)
Record t : Type := mk {
  learning_rate : Q;
  gamma : Q;
  surrogate_eps_clip : Q;
  K_epoch : nat;
  weight_loss : Q;
  weight_entropy : Q;
  memory : DataBuffers.t;
  loss : Q;
  actor_critic_model : ActorCriticModel.t;
  optimizer : Optimizer
}.

Definition init (state_size action_size : nat) (w : World) : t * World :=
  let learning_rate := 1 # 100000 in
  let '(model, w) := ActorCriticModel.init state_size action_size 128 128 w in
  ({| learning_rate := learning_rate;
      gamma := 99 # 100;
      surrogate_eps_clip := 2 # 10;
      K_epoch := 30;
      weight_loss := 1;
      weight_entropy := 1 # 100;
      memory := DataBuffers.init;
      loss := 0;
      actor_critic_model := model;
      optimizer := Adam (ActorCriticModel.actor model)
                        (ActorCriticModel.critic model) learning_rate |}, w).

Definition set_memory (self : t) (m : DataBuffers.t) : t :=
  {| learning_rate := learning_rate self; gamma := gamma self;
     surrogate_eps_clip := surrogate_eps_clip self; K_epoch := K_epoch self;
     weight_loss := weight_loss self; weight_entropy := weight_entropy self;
     memory := m; loss := loss self;
     actor_critic_model := actor_critic_model self;
     optimizer := optimizer self |}.

Definition set_model (self : t) (m : ActorCriticModel.t) : t :=
  {| learning_rate := learning_rate self; gamma := gamma self;
     surrogate_eps_clip := surrogate_eps_clip self; K_epoch := K_epoch self;
     weight_loss := weight_loss self; weight_entropy := weight_entropy self;
     memory := memory self; loss := loss self;
     actor_critic_model := m;
     optimizer := optimizer self |}.

Definition set_optimizer (self : t) (o : Optimizer) : t :=
  {| learning_rate := learning_rate self; gamma := gamma self;
     surrogate_eps_clip := surrogate_eps_clip self; K_epoch := K_epoch self;
     weight_loss := weight_loss self; weight_entropy := weight_entropy self;
     memory := memory self; loss := loss self;
     actor_critic_model := actor_critic_model self;
     optimizer := o |}.

Definition set_loss (self : t) (l : Q) : t :=
  {| learning_rate := learning_rate self; gamma := gamma self;
     surrogate_eps_clip := surrogate_eps_clip self; K_epoch := K_epoch self;
     weight_loss := weight_loss self; weight_entropy := weight_entropy self;
     memory := memory self; loss := l;
     actor_critic_model := actor_critic_model self;
     optimizer := optimizer self |}.

Definition reset (self : t) : t := self.

(** [act(state, eps=None)]: [eps] is accepted and never read. *)
Definition act (self : t) (state : list Q) (eps : option Q) (w : World)
  : Z * World :=
  let dist := ActorCriticModel.get_actor_dist (actor_critic_model self) state in
  let '(action, g) := dist_sample dist (rng w) in
  (action, with_rng g w).

Definition step (self : t) (handle : Z) (state : list Q) (action : Z)
    (reward : Q) (next_state : list Q) (done : bool) : t :=
  let dist := ActorCriticModel.get_actor_dist (actor_critic_model self) state in
  let action_logprobs := dist_log_prob dist action in
  let transition :=
    mkTransition state action reward next_state action_logprobs done in
  set_memory self (DataBuffers.push_transition (memory self) handle transition).

(** The loop of [_convert_transitions_to_torch_tensors]: one iteration, for
    one transition of the reversed array.  The accumulator is
    [discounted_reward] and the six lists; [insert(0, x)] is a cons. *)
Definition convert_step (gamma : Q) (acc : Q * Batch) (transition : Transition)
  : Q * Batch :=
  let '(discounted_reward, b) := acc in
  let discounted_reward :=
    if t_done transition then 0%Q
    else (t_reward transition + gamma * discounted_reward)%Q in
  (discounted_reward,
   {| states := t_state transition :: states b;
      actions := t_action transition :: actions b;
      rewards := discounted_reward :: rewards b;
      states_next := t_next_state transition :: states_next b;
      dones := (if t_done transition then 1%Q else 0%Q) :: dones b;
      prob_actions := t_logprob transition :: prob_actions b |}).

Definition empty_batch : Batch :=
  {| states := []; actions := []; rewards := []; states_next := [];
     dones := []; prob_actions := [] |}.

(** The lists after the loop, before they are turned into tensors. *)
Definition convert_loop (gamma : Q) (transitions_array : list Transition)
  : Batch :=
  snd (fold_left (convert_step gamma) (rev transitions_array) (0%Q, empty_batch)).

(** [reward_list] after the loop: the discounted returns. *)
Definition discounted_rewards (gamma : Q) (transitions_array : list Transition)
  : list Q :=
  rewards (convert_loop gamma transitions_array).

Definition _convert_transitions_to_torch_tensors (self : t)
    (transitions_array : list Transition) : Batch :=
  let b := convert_loop (gamma self) transitions_array in
  {| states := states b;
     actions := actions b;
     rewards := standardize (rewards b);
     states_next := states_next b;
     dones := dones b;
     prob_actions := prob_actions b |}.

(** [range(n)] *)
Definition range (n : nat) : list Z := map Z.of_nat (seq 0 n).

(** The body of [if len(agent_episode_history) > 0:]: conversion, one
    gradient step, and the assignment of [self.loss], which a step that
    raises does not reach. *)
Definition optimize (self : t) (agent_episode_history : list Transition)
  : Outcome t :=
  let batch :=
    _convert_transitions_to_torch_tensors self agent_episode_history in
  match
    gradient_step (surrogate_eps_clip self) (weight_loss self)
      (weight_entropy self)
      (ActorCriticModel.actor (actor_critic_model self))
      (ActorCriticModel.critic (actor_critic_model self))
      (optimizer self) batch
  with
  | StepReturned a c o l =>
      Returned
        (set_loss
           (set_optimizer
              (set_model self {| ActorCriticModel.actor := a;
                                 ActorCriticModel.critic := c |}) o) l)
  | StepRaised a c o =>
      Raised
        (set_optimizer
           (set_model self {| ActorCriticModel.actor := a;
                              ActorCriticModel.critic := c |}) o)
  end.

(** The body of the inner loop of [train_net], for one [handle]. *)
Definition train_handle (self : t) (handle : Z) : Outcome t :=
  let agent_episode_history := DataBuffers.get_transitions (memory self) handle in
  if (0 <? length agent_episode_history)%nat
  then optimize self agent_episode_history
  else Returned self.

(** One epoch: [for handle in range(len(self.memory))]. *)
Definition train_epoch (self : t) : Outcome t :=
  fold_left (fun r handle => and_then r (fun self => train_handle self handle))
    (range (DataBuffers.len (memory self))) (Returned self).

(** The two loops, then [self.memory.reset()], which an exception in the
    loops skips. *)
Definition train_net (self : t) : Outcome t :=
  let r :=
    fold_left (fun r _ => and_then r train_epoch) (range (K_epoch self))
      (Returned self) in
  match r with
  | Returned self => Returned (set_memory self (DataBuffers.reset (memory self)))
  | Raised self => Raised self
  end.

Definition end_episode (self : t) (train : bool) : Outcome t :=
  if train then train_net self else Returned self.

Definition save (self : t) (filename : string) (w : World) : World :=
  let w := ActorCriticModel.save (actor_critic_model self) filename w in
  save_file (filename +:+ ".optimizer") (opt_state_dict (optimizer self)) w.

(** [PPOAgent._load], the same text as [ActorCriticModel._load]. *)
Definition _load {O : Type} `{!HasStateDict O} (obj : O) (filename : string)
    (w : World) : O * World :=
  match fs w !! filename with
  | Some blob =>
      let w := print (" >>  " +:+ filename) w in
      match torch_load blob with
      | Some sd =>
          match load_state_dict obj sd with
          | Returned obj => (obj, w)
          | Raised obj => (obj, print " >> failed!" w)
          end
      | None => (obj, print " >> failed!" w)
      end
  | None => (obj, w)
  end.

Definition load (self : t) (filename : string) (w : World) : t * World :=
  let w := print ("load policy from file " +:+ filename) w in
  let '(m, w) := ActorCriticModel.load (actor_critic_model self) filename w in
  let w := print ("load optimizer from file " +:+ filename) w in
  let '(o, w) := _load (optimizer self) (filename +:+ ".optimizer") w in
  (set_optimizer (set_model self m) o, w).

End WithTorch.
End PPOAgent.

(** ** The sub-policies of the composition layer *)

(** The [Policy] capability that [MultiPolicy] calls on its two sub-policies
    ([DeadLockAvoidanceAgent] and the PPO core it imports).  Their code is a
    parameter: [S] is the sub-policy's own state, [W] the world it may touch
    (files, random generator).  Every method may change both. *)
Class Policy (W S : Type) : Type := {
  p_act : S -> Z -> list Q -> Q -> W -> Z * S * W;
  p_step : S -> Z -> list Q -> Z -> Q -> list Q -> bool -> W -> S * W;
  p_load : S -> string -> W -> S * W;
  p_save : S -> string -> W -> S * W;
  p_reset : S -> W -> S * W;
  p_test : S -> W -> S * W;
  p_start_step : S -> bool -> W -> S * W;
  p_end_step : S -> bool -> W -> S * W;
  (** the attribute [loss] *)
  p_loss : S -> Q
}.

(** Which sub-policy a call goes to. *)
Inductive Who : Type := Advisor | PPO.

(** A call received by a sub-policy, with its arguments: what a sub-policy
    that keeps a log of its calls writes down. *)
Inductive Call : Type :=
  | CAct (who : Who) (handle : Z) (state : list Q) (eps : Q)
  | CStep (who : Who) (handle : Z) (state : list Q) (action : Z) (reward : Q)
          (next_state : list Q) (done : bool)
  | CLoad (who : Who) (filename : string)
  | CSave (who : Who) (filename : string)
  | CReset (who : Who)
  | CTest (who : Who)
  | CStartStep (who : Who) (train : bool)
  | CEndStep (who : Who) (train : bool).

Definition callee (c : Call) : Who :=
  match c with
  | CAct who _ _ _ => who
  | CStep who _ _ _ _ _ _ => who
  | CLoad who _ => who
  | CSave who _ => who
  | CReset who => who
  | CTest who => who
  | CStartStep who _ => who
  | CEndStep who _ => who
  end.


(** ** class MultiPolicy *)

Module MultiPolicy.
Section WithPolicies.
Context {W A P : Type} `{!Policy W A} `{!Policy W P}.

Record t : Type := mk {
  state_size : nat;
  action_size : nat;
  memory : list Transition;
  loss : Q;
  deadlock_avoidance_policy : A;
  ppo_policy : P
}.

(** [np.arange(n)] *)
Definition arange (n : nat) : list Z := map Z.of_nat (seq 0 n).

(** [int(b)] stored in a float array *)
Definition int_of_bool (b : bool) : Q := if b then 1%Q else 0%Q.

(** [extended_state = np.copy(state)] followed by the loop that appends
    [int(action_extra_state == action_itr)] for every [action_itr]. *)
Definition extend_state (action_size : nat) (state : list Q)
    (action_extra_state : Z) : list Q :=
  fold_left
    (fun extended_state action_itr =>
       extended_state ++ [int_of_bool (action_extra_state =? action_itr)%Z])
    (arange action_size) state.

(** Every method returns its result, the new [self] and the new world.  The
    world is handed from each call to the next in the order of the
    statements. *)

Definition load (self : t) (filename : string) (w : W) : t * W :=
  let '(p, w) := p_load (ppo_policy self) filename w in
  let '(d, w) := p_load (deadlock_avoidance_policy self) filename w in
  ({| state_size := state_size self; action_size := action_size self;
      memory := memory self; loss := loss self;
      deadlock_avoidance_policy := d; ppo_policy := p |}, w).

Definition save (self : t) (filename : string) (w : W) : t * W :=
  let '(p, w) := p_save (ppo_policy self) filename w in
  let '(d, w) := p_save (deadlock_avoidance_policy self) filename w in
  ({| state_size := state_size self; action_size := action_size self;
      memory := memory self; loss := loss self;
      deadlock_avoidance_policy := d; ppo_policy := p |}, w).

Definition step (self : t) (handle : Z) (state : list Q) (action : Z)
    (reward : Q) (next_state : list Q) (done : bool) (w : W) : t * W :=
  let '(action_extra_state, d, w) :=
    p_act (deadlock_avoidance_policy self) handle state 0%Q w in
  let '(action_extra_next_state, d, w) := p_act d handle next_state 0%Q w in
  let extended_state :=
    extend_state (action_size self) state action_extra_state in
  let extended_next_state :=
    extend_state (action_size self) next_state action_extra_next_state in
  let '(d, w) := p_step d handle state action reward next_state done w in
  let '(p, w) :=
    p_step (ppo_policy self) handle extended_state action reward
      extended_next_state done w in
  ({| state_size := state_size self; action_size := action_size self;
      memory := memory self; loss := loss self;
      deadlock_avoidance_policy := d; ppo_policy := p |}, w).

Definition act (self : t) (handle : Z) (state : list Q) (eps : Q) (w : W)
  : Z * t * W :=
  let '(action_extra_state, d, w) :=
    p_act (deadlock_avoidance_policy self) handle state 0%Q w in
  let extended_state :=
    extend_state (action_size self) state action_extra_state in
  let '(action_ppo, p, w) := p_act (ppo_policy self) handle extended_state eps w in
  (action_ppo,
   {| state_size := state_size self; action_size := action_size self;
      memory := memory self; loss := p_loss p;
      deadlock_avoidance_policy := d; ppo_policy := p |}, w).

Definition reset (self : t) (w : W) : t * W :=
  let '(p, w) := p_reset (ppo_policy self) w in
  let '(d, w) := p_reset (deadlock_avoidance_policy self) w in
  ({| state_size := state_size self; action_size := action_size self;
      memory := memory self; loss := loss self;
      deadlock_avoidance_policy := d; ppo_policy := p |}, w).

Definition test (self : t) (w : W) : t * W :=
  let '(p, w) := p_test (ppo_policy self) w in
  let '(d, w) := p_test (deadlock_avoidance_policy self) w in
  ({| state_size := state_size self; action_size := action_size self;
      memory := memory self; loss := loss self;
      deadlock_avoidance_policy := d; ppo_policy := p |}, w).

Definition start_step (self : t) (train : bool) (w : W) : t * W :=
  let '(d, w) := p_start_step (deadlock_avoidance_policy self) train w in
  let '(p, w) := p_start_step (ppo_policy self) train w in
  ({| state_size := state_size self; action_size := action_size self;
      memory := memory self; loss := loss self;
      deadlock_avoidance_policy := d; ppo_policy := p |}, w).

Definition end_step (self : t) (train : bool) (w : W) : t * W :=
  let '(d, w) := p_end_step (deadlock_avoidance_policy self) train w in
  let '(p, w) := p_end_step (ppo_policy self) train w in
  ({| state_size := state_size self; action_size := action_size self;
      memory := memory self; loss := loss self;
      deadlock_avoidance_policy := d; ppo_policy := p |}, w).

End WithPolicies.
End MultiPolicy.

(** ** Small concrete instances of the interfaces

    They make the statements below checkable on concrete inputs.  [ToyTorch]
    keeps, for a network, its architecture and one number standing for its
    weights; a gradient step adds one to that number, so the number of steps
    taken is visible; its gradient step never raises and its
    [load_state_dict] rejects a network of another architecture as a whole.
    [TensorTorch], further down, has tensors, a [load_state_dict] that copies
    what fits, and not-a-number. *)

Module Toy.

#[export] Instance Layer_eq_dec : EqDecision Layer.
Proof. solve_decision. Defined.

(** Architecture ([None] for an optimiser) and content. *)
Definition ToyStateDict : Type := option (list Layer) * Z.

Definition toy_net_load (n : list Layer * Z) (sd : ToyStateDict)
  : Outcome (list Layer * Z) :=
  match sd with
  | (Some arch, weights) =>
      if decide (arch = fst n) then Returned (fst n, weights) else Raised n
  | (None, _) => Raised n
  end.

Definition toy_opt_load (o : Z) (sd : ToyStateDict) : Outcome Z :=
  match sd with
  | (None, steps) => Returned steps
  | (Some _, _) => Raised o
  end.

#[export] Instance ToyTorch : Torch := {|
  Net := list Layer * Z;
  Optimizer := Z;
  StateDict := ToyStateDict;
  Blob := option ToyStateDict;
  Rng := nat;
  Categorical := list Q;
  Sequential := fun layers g => ((layers, Z.of_nat g), S g);
  net_arch := fst;
  Adam := fun _ _ _ => 0%Z;
  torch_save := Some;
  torch_load := fun blob => blob;
  net_state_dict := fun n => (Some (fst n), snd n);
  net_load_state_dict := toy_net_load;
  opt_state_dict := fun o => (None, o);
  opt_load_state_dict := toy_opt_load;
  net_dist := fun n state => map (Qmult (inject_Z (snd n))) state;
  dist_sample := fun _ g => (0%Z, S g);
  dist_log_prob := fun _ _ => 0%Q;
  standardize := fun l => l;
  gradient_step := fun _ _ _ a c o _ =>
    StepReturned (fst a, (snd a + 1)%Z) (fst c, (snd c + 1)%Z) (o + 1)%Z 0%Q
|}.

Definition toy_world : World := {| fs := ∅; console := []; rng := 0%nat |}.

Definition toy_transition (reward : Q) (done : bool) : Transition :=
  {| t_state := [0%Q]; t_action := 0%Z; t_reward := reward;
     t_next_state := [0%Q]; t_logprob := 0%Q; t_done := done |}.

(** A fresh 1-dimensional, 2-action agent, and the same agent after one
    recorded transition for [handle] and one training pass. *)
Definition toy_agent : PPOAgent.t := fst (PPOAgent.init 1 2 toy_world).

Definition toy_trained (handle : Z) : PPOAgent.t :=
  outcome_obj
    (PPOAgent.train_net
       (PPOAgent.step toy_agent handle [1%Q] 0%Z 1%Q [1%Q] true)).

(** A store with the handles 0 and 1, handle 1 holding an empty sequence. *)
Definition toy_store : DataBuffers.t :=
  {| DataBuffers.memory :=
       {[ 0%Z := [toy_transition 1 true]; 1%Z := [] ]} |}.

(** A world whose only file is [ckpt.critic], holding a critic with
    weights 9. *)
Definition toy_critic_world : World :=
  {| fs := {[ "ckpt.critic" :=
               Some (Some [Linear 1 128; Tanh; Linear 128 128; Tanh;
                           Linear 128 1], 9%Z) ]};
     console := []; rng := 0%nat |}.

(** A world whose file [ckpt.actor] holds the state of a network of another
    architecture. *)
Definition toy_bad_world : World :=
  {| fs := {[ "ckpt.actor" := Some (Some [Linear 3 3], 7%Z) ]};
     console := []; rng := 0%nat |}.

(** A sub-policy that keeps a log of the calls it receives: the world is the
    log, shared by the sub-policies, and every method appends its call.  The
    state is the action [act] answers; the loss is the state plus 7. *)
Definition trace_policy (who : Who) : Policy (list Call) Z := {|
  p_act := fun s handle state eps w => (s, s, w ++ [CAct who handle state eps]);
  p_step := fun s handle state action reward next_state done w =>
    (s, w ++ [CStep who handle state action reward next_state done]);
  p_load := fun s filename w => (s, w ++ [CLoad who filename]);
  p_save := fun s filename w => (s, w ++ [CSave who filename]);
  p_reset := fun s w => (s, w ++ [CReset who]);
  p_test := fun s w => (s, w ++ [CTest who]);
  p_start_step := fun s train w => (s, w ++ [CStartStep who train]);
  p_end_step := fun s train w => (s, w ++ [CEndStep who train]);
  p_loss := fun s => inject_Z (s + 7)
|}.

(** *** A library instance with tensors and not-a-number

    A network is its architecture and one weight and one bias tensor per
    [Linear] layer; a tensor is a shape and a value, [None] for nan.
    [load_state_dict] copies, position by position, every tensor whose shape
    fits and raises at the end when one did not fit or the numbers of
    tensors differ.  A gradient step on a batch of one return gives nan (the
    standard deviation of one sample), which makes every weight nan; a
    gradient step on nan weights raises (the distribution rejects nan
    probabilities). *)

Definition Tensor : Type := list nat * option Z.

Definition layer_tensors (v : Z) (l : Layer) : list Tensor :=
  match l with
  | Linear i o => [([o; i], Some v); ([o], Some v)]
  | Tanh => []
  | Softmax => []
  end.

Fixpoint copy_fitting (ts sd : list Tensor) : list Tensor * bool :=
  match ts, sd with
  | [], [] => ([], true)
  | [], _ :: _ => ([], false)
  | t :: ts', [] => (t :: ts', false)
  | t :: ts', u :: sd' =>
      let '(rest, ok) := copy_fitting ts' sd' in
      if decide (fst t = fst u) then (u :: rest, ok) else (t :: rest, false)
  end.

Definition tensor_net_load (n : list Layer * list Tensor) (sd : list Tensor)
  : Outcome (list Layer * list Tensor) :=
  let '(ts, ok) := copy_fitting (snd n) sd in
  if ok then Returned (fst n, ts) else Raised (fst n, ts).

Definition tensor_opt_load (o : Z) (sd : list Tensor) : Outcome Z :=
  match sd with
  | [([], Some steps)] => Returned steps
  | _ => Raised o
  end.

Definition has_nan (n : list Layer * list Tensor) : bool :=
  existsb (fun t => match snd t with None => true | Some _ => false end) (snd n).

Definition all_nan (n : list Layer * list Tensor) : list Layer * list Tensor :=
  (fst n, map (fun t => (fst t, None)) (snd n)).

Definition all_succ (n : list Layer * list Tensor) : list Layer * list Tensor :=
  (fst n, map (fun t => (fst t, option_map Z.succ (snd t))) (snd n)).

Definition tensor_gradient_step (a c : list Layer * list Tensor) (o : Z)
    (batch : Batch) : StepOutcome (list Layer * list Tensor) Z :=
  if has_nan a then StepRaised a c o
  else if (length (rewards batch) <=? 1)%nat
       then StepReturned (all_nan a) (all_nan c) (o + 1)%Z 0%Q
       else StepReturned (all_succ a) (all_succ c) (o + 1)%Z 0%Q.

Definition TensorTorch : Torch := {|
  Net := list Layer * list Tensor;
  Optimizer := Z;
  StateDict := list Tensor;
  Blob := option (list Tensor);
  Rng := nat;
  Categorical := list Q;
  Sequential := fun layers g =>
    ((layers, flat_map (layer_tensors (Z.of_nat g)) layers), S g);
  net_arch := fst;
  Adam := fun _ _ _ => 0%Z;
  torch_save := Some;
  torch_load := fun blob => blob;
  net_state_dict := snd;
  net_load_state_dict := tensor_net_load;
  opt_state_dict := fun o => [([], Some o)];
  opt_load_state_dict := tensor_opt_load;
  net_dist := fun _ state => state;
  dist_sample := fun _ g => (0%Z, S g);
  dist_log_prob := fun _ _ => 0%Q;
  standardize := fun l => l;
  gradient_step := fun _ _ _ => tensor_gradient_step
|}.

(** A fresh 1-dimensional, 2-action agent of [TensorTorch] with one
    transition recorded for handle 0. *)
Definition one_transition_agent : @PPOAgent.t TensorTorch :=
  @PPOAgent.step TensorTorch
    (fst (@PPOAgent.init TensorTorch 1 2
            (@mkWorld TensorTorch ∅ [] 0%nat)))
    0 [1%Q] 0%Z 1%Q [1%Q] true.

(** The actor of a fresh 1-dimensional, 2-action agent of [TensorTorch]. *)
Definition tensor_actor : list Layer * list Tensor :=
  ([Linear 1 128; Tanh; Linear 128 128; Tanh; Linear 128 2; Softmax],
   flat_map (layer_tensors 0)
     [Linear 1 128; Tanh; Linear 128 128; Tanh; Linear 128 2; Softmax]).

(** A world whose file [ckpt.actor] holds the actor of a 3-dimensional,
    2-action agent, all values 7: only the first weight tensor has another
    shape than in [tensor_actor]. *)
Definition tensor_partial_world : @World TensorTorch :=
  @mkWorld TensorTorch
    {[ "ckpt.actor" :=
         Some (flat_map (layer_tensors 7)
                 [Linear 3 128; Tanh; Linear 128 128; Tanh; Linear 128 2;
                  Softmax]) ]}
    [] 0%nat.

(** A 4-dimensional, 2-action composed agent of logging sub-policies whose
    advisor suggests action 1. *)
Definition trace_multi_policy : @MultiPolicy.t Z Z :=
  {| MultiPolicy.state_size := 4; MultiPolicy.action_size := 2;
     MultiPolicy.memory := []; MultiPolicy.loss := 0%Q;
     MultiPolicy.deadlock_avoidance_policy := 1%Z;
     MultiPolicy.ppo_policy := 0%Z |}.

End Toy.

(** ** Definitions used by the statements *)

(** The loop of [_convert_transitions_to_torch_tensors] read forwards: the
    return of a step from the returns of the steps after it. *)
Fixpoint returns (gamma : Q) (l : list Transition) : list Q :=
  match l with
  | [] => []
  | transition :: l' =>
      let rest := returns gamma l' in
      (if t_done transition then 0%Q
       else (t_reward transition + gamma * hd 0%Q rest)%Q) :: rest
  end.

(** [sum_{k = start}^{start + len - 1} f k] *)
Definition qsum (f : nat -> Q) (start len : nat) : Q :=
  fold_right Qplus 0%Q (map f (seq start len)).

(** The sum of the spec, as it is written there:
    [sum_{k=i}^{n-1} gamma^(k-i) * r_k]. *)
Definition spec_return (gamma : Q) (rs : list Q) (i : nat) : Q :=
  qsum (fun k => (gamma ^ Z.of_nat (k - i) * nth k rs 0)%Q) i (length rs - i).

(** The same sum in Horner form. *)
Definition horner (gamma : Q) (rs : list Q) : Q :=
  fold_right (fun r acc => (r + gamma * acc)%Q) 0%Q rs.

(** What the library is assumed to do for a checkpoint round trip. *)
Class TorchLaws `{Torch} : Prop := {
  (** a file written by [torch.save] is read back by [torch.load] *)
  torch_load_save : forall sd, torch_load (torch_save sd) = Some sd;
  (** [nn.Sequential] builds the architecture it is given *)
  net_arch_Sequential : forall layers g, net_arch (fst (Sequential layers g)) = layers;
  (** [load_state_dict] of the state of a network of the same architecture
      succeeds and makes the forward pass the same *)
  net_load_same_arch : forall n m,
    net_arch m = net_arch n ->
    exists m', net_load_state_dict m (net_state_dict n) = Returned m'
               /\ forall x, net_dist m' x = net_dist n x
}.

(** [save(filename)] on [saved], then a fresh agent, then [load(filename)]
    on the fresh agent; the result is the loaded agent. *)
Definition save_then_load_fresh `{Torch} (saved : PPOAgent.t)
    (state_size action_size : nat) (filename : string) (w : World)
  : PPOAgent.t :=
  let w := PPOAgent.save saved filename w in
  let '(fresh, w) := PPOAgent.init state_size action_size w in
  fst (PPOAgent.load fresh filename w).

(** A log of a broadcast that called the advisor first and the PPO core
    second. *)
Definition advisor_first (calls : list Call) : Prop :=
  map callee calls = [Advisor; PPO].

(** One gradient step after the other for the handles of a list, in order,
    stopping at the first step that raises. *)
Definition steps_for `{Torch} (handles : list Z) (self : PPOAgent.t)
  : Outcome PPOAgent.t :=
  fold_left
    (fun r handle =>
       and_then r
         (fun self =>
            PPOAgent.optimize self
              (DataBuffers.get_transitions (PPOAgent.memory self) handle)))
    handles (Returned self).

(** The one-hot vector of length [n] with its 1 at index [a]. *)
Definition one_hot (n : nat) (a : Z) : list Q :=
  map (fun i => MultiPolicy.int_of_bool (a =? i)%Z) (MultiPolicy.arange n).

(** The handles for which one epoch of [train_net] takes a gradient step, in
    the order of the loop: those of [range(len(memory))] that have at least
    one transition. *)
Definition epoch_handles (m : DataBuffers.t) : list Z :=
  List.filter
    (fun handle => (0 <? length (DataBuffers.get_transitions m handle))%nat)
    (PPOAgent.range (DataBuffers.len m)).

(** The fields of the composition layer that are its own (not sub-policies). *)
Definition own_fields {A P : Type} (self : @MultiPolicy.t A P)
  : nat * nat * list Transition * Q :=
  (MultiPolicy.state_size self, MultiPolicy.action_size self,
   MultiPolicy.memory self, MultiPolicy.loss self).

(** The hyperparameters of an agent, in the order [__init__] sets them. *)
Definition hyperparameters `{Torch} (self : PPOAgent.t)
  : Q * Q * Q * nat * Q * Q :=
  (PPOAgent.learning_rate self, PPOAgent.gamma self,
   PPOAgent.surrogate_eps_clip self, PPOAgent.K_epoch self,
   PPOAgent.weight_loss self, PPOAgent.weight_entropy self).

(** [push_transition] for one handle, once per transition of a list. *)
Definition push_all (self : DataBuffers.t) (handle : Z) (ts : list Transition)
  : DataBuffers.t :=
  fold_left (fun b t => DataBuffers.push_transition b handle t) ts self.

(** * Properties *)

(** ** Discounted returns ([_convert_transitions_to_torch_tensors]) *)

Section DiscountedReturns.

Lemma convert_loop_fold (gamma : Q) (l : list Transition) :
  fold_left (PPOAgent.convert_step gamma) (rev l) (0%Q, PPOAgent.empty_batch)
  = (hd 0%Q (returns gamma l),
     {| states := map t_state l;
        actions := map t_action l;
        rewards := returns gamma l;
        states_next := map t_next_state l;
        dones := map (fun tr => if t_done tr then 1%Q else 0%Q) l;
        prob_actions := map t_logprob l |}).
Proof.
  induction l as [|tr l IH]; [reflexivity|].
  simpl rev. rewrite fold_left_app, IH. reflexivity.
Qed.

Lemma discounted_rewards_returns (gamma : Q) (l : list Transition) :
  PPOAgent.discounted_rewards gamma l = returns gamma l.
Proof.
  unfold PPOAgent.discounted_rewards, PPOAgent.convert_loop.
  now rewrite convert_loop_fold.
Qed.

Lemma length_returns (gamma : Q) (l : list Transition) :
  length (returns gamma l) = length l.
Proof. induction l; simpl; congruence. Qed.

Lemma returns_lookup_done (gamma : Q) (l : list Transition) (i : nat)
    (tr : Transition) :
  l !! i = Some tr -> t_done tr = true -> returns gamma l !! i = Some 0%Q.
Proof.
  revert i; induction l as [|x l IH]; intros [|i] Hl Hd; simplify_eq/=.
  - now rewrite Hd.
  - now apply IH.
Qed.

Lemma qsum_S (f : nat -> Q) (start len : nat) :
  qsum f start (S len) = (f start + qsum f (S start) len)%Q.
Proof. reflexivity. Qed.

Lemma qsum_shift (f : nat -> Q) (start len : nat) :
  qsum f (S start) len = qsum (fun k => f (S k)) start len.
Proof.
  unfold qsum. now rewrite <- seq_shift, map_map.
Qed.

Lemma qsum_ext (f g : nat -> Q) (start len : nat) :
  (forall k, (start <= k < start + len)%nat -> (f k == g k)%Q) ->
  (qsum f start len == qsum g start len)%Q.
Proof.
  revert start; induction len as [|len IH]; intros start Hfg.
  - reflexivity.
  - rewrite !qsum_S. rewrite (Hfg start) by lia.
    rewrite (IH (S start)); [reflexivity|]. intros k Hk. apply Hfg. lia.
Qed.

Lemma qsum_scale (c : Q) (f : nat -> Q) (start len : nat) :
  (qsum (fun k => c * f k) start len == c * qsum f start len)%Q.
Proof.
  revert start; induction len as [|len IH]; intros start.
  - unfold qsum; simpl. ring.
  - rewrite !qsum_S, IH. ring.
Qed.

Lemma Qpower_S (gamma : Q) (k : nat) :
  (gamma ^ Z.of_nat (S k) == gamma * gamma ^ Z.of_nat k)%Q.
Proof.
  replace (Z.of_nat (S k)) with (1 + Z.of_nat k)%Z by lia.
  rewrite Qpower_plus' by lia. now rewrite Qpower_1_r.
Qed.

(** The spec's sum from index 0 obeys the Horner recurrence. *)
Lemma spec_return_cons (gamma r : Q) (rs : list Q) :
  (spec_return gamma (r :: rs) 0 == r + gamma * spec_return gamma rs 0)%Q.
Proof.
  unfold spec_return. simpl length. rewrite !Nat.sub_0_r.
  rewrite qsum_S, qsum_shift. simpl (nth 0 _ _).
  rewrite <- qsum_scale.
  rewrite (qsum_ext _ (fun k => gamma * (gamma ^ Z.of_nat (k - 0) * nth k rs 0))%Q).
  - simpl. ring.
  - intros k _. rewrite !Nat.sub_0_r. simpl (nth (S k) _ _).
    rewrite Qpower_S. ring.
Qed.

Lemma spec_return_horner (gamma : Q) (rs : list Q) :
  (spec_return gamma rs 0 == horner gamma rs)%Q.
Proof.
  induction rs as [|r rs IH].
  - reflexivity.
  - rewrite spec_return_cons, IH. reflexivity.
Qed.

(** Starting the sum at [i] is starting it at 0 on the list without its
    first [i] entries. *)
Lemma spec_return_drop (gamma : Q) (rs : list Q) (i : nat) :
  (spec_return gamma rs i == spec_return gamma (drop i rs) 0)%Q.
Proof.
  revert i; induction rs as [|r rs IH]; intros [|i]; try reflexivity.
  rewrite skipn_cons, <- IH. unfold spec_return. simpl length.
  replace (S (length rs) - S i)%nat with (length rs - i)%nat by lia.
  rewrite qsum_shift. apply qsum_ext. intros k _. reflexivity.
Qed.

(** On a trajectory with no [done] flag the code computes the Horner form of
    the rewards that remain. *)
Lemma returns_no_done_hd (gamma : Q) (l : list Transition) :
  Forall (fun tr => t_done tr = false) l ->
  hd 0%Q (returns gamma l) = horner gamma (map t_reward l).
Proof.
  induction 1 as [|tr l Hd _ IH]; [reflexivity|].
  simpl. now rewrite Hd, IH.
Qed.

Lemma returns_drop (gamma : Q) (l : list Transition) (i : nat) :
  drop i (returns gamma l) = returns gamma (drop i l).
Proof.
  revert i; induction l as [|tr l IH]; intros [|i]; try reflexivity.
  simpl. apply IH.
Qed.

Lemma nth_hd_drop (l : list Q) (i : nat) : nth i l 0%Q = hd 0%Q (drop i l).
Proof.
  revert i; induction l as [|x l IH]; intros [|i]; try reflexivity.
  simpl. apply IH.
Qed.

(** In exact arithmetic (the code rounds to binary floats): with no [done]
    flag at all the recurrence of the code gives the spec's sum. *)
Lemma discounted_rewards_no_done (gamma : Q) (l : list Transition) (i : nat) :
  Forall (fun tr => t_done tr = false) l ->
  (nth i (PPOAgent.discounted_rewards gamma l) 0
   == spec_return gamma (map t_reward l) i)%Q.
Proof.
  intros Hl. rewrite discounted_rewards_returns, nth_hd_drop, returns_drop.
  rewrite returns_no_done_hd by (now apply Forall_drop).
  rewrite spec_return_drop, spec_return_horner.
  now rewrite <- (skipn_map t_reward).
Qed.

(** In exact arithmetic: with [done] on the last step only, the recurrence
    of the code gives the spec's sum of the rewards before the last; the
    last reward is in no return. *)
Lemma discounted_rewards_done_last (gamma : Q) (pre : list Transition)
    (last : Transition) (i : nat) :
  Forall (fun tr => t_done tr = false) pre ->
  t_done last = true ->
  (nth i (PPOAgent.discounted_rewards gamma (pre ++ [last])) 0
   == spec_return gamma (map t_reward pre) i)%Q.
Proof.
  intros Hpre Hlast. rewrite discounted_rewards_returns.
  assert (Hhd : forall l, Forall (fun tr => t_done tr = false) l ->
             hd 0%Q (returns gamma (l ++ [last])) = horner gamma (map t_reward l)).
  { induction 1 as [|tr l Hd _ IH]; simpl.
    - now rewrite Hlast.
    - now rewrite Hd, IH. }
  rewrite nth_hd_drop, returns_drop.
  rewrite spec_return_drop, spec_return_horner, skipn_map.
  destruct (Nat.le_gt_cases i (length pre)) as [Hi|Hi].
  - rewrite drop_app_le by exact Hi. rewrite Hhd by (now apply Forall_drop).
    reflexivity.
  - rewrite !drop_ge; [reflexivity | lia |].
    rewrite length_app; simpl; lia.
Qed.

End DiscountedReturns.

(** ** Checkpoints ([save], [_load], [load]) *)

Section Checkpoints.
Context `{Torch}.

Lemma suffix_ne (filename s1 s2 : string) :
  s1 <> s2 -> filename +:+ s1 <> filename +:+ s2.
Proof. intros Hne Heq. apply Hne. exact (String.app_inj filename _ _ Heq). Qed.

(** The three files [PPOAgent.save] writes, innermost first. *)
Lemma save_fs (self : PPOAgent.t) (filename : string) (w : World) :
  fs (PPOAgent.save self filename w)
  = <[filename +:+ ".optimizer" :=
        torch_save (opt_state_dict (PPOAgent.optimizer self))]>
      (<[filename +:+ ".value" :=
           torch_save (net_state_dict
             (ActorCriticModel.critic (PPOAgent.actor_critic_model self)))]>
         (<[filename +:+ ".actor" :=
              torch_save (net_state_dict
                (ActorCriticModel.actor (PPOAgent.actor_critic_model self)))]>
            (fs w))).
Proof. reflexivity. Qed.

Lemma save_lookup_actor (self : PPOAgent.t) (filename : string) (w : World) :
  fs (PPOAgent.save self filename w) !! (filename +:+ ".actor")
  = Some (torch_save (net_state_dict
            (ActorCriticModel.actor (PPOAgent.actor_critic_model self)))).
Proof.
  rewrite save_fs.
  rewrite lookup_insert_ne by (apply suffix_ne; discriminate).
  rewrite lookup_insert_ne by (apply suffix_ne; discriminate).
  apply lookup_insert_eq.
Qed.

Lemma save_lookup_critic (self : PPOAgent.t) (filename : string) (w : World) :
  fs (PPOAgent.save self filename w) !! (filename +:+ ".critic")
  = fs w !! (filename +:+ ".critic").
Proof.
  rewrite save_fs.
  rewrite !lookup_insert_ne by (apply suffix_ne; discriminate).
  reflexivity.
Qed.

Lemma save_lookup_value (self : PPOAgent.t) (filename : string) (w : World) :
  fs (PPOAgent.save self filename w) !! (filename +:+ ".value")
  = Some (torch_save (net_state_dict
            (ActorCriticModel.critic (PPOAgent.actor_critic_model self)))).
Proof.
  rewrite save_fs.
  rewrite lookup_insert_ne by (apply suffix_ne; discriminate).
  apply lookup_insert_eq.
Qed.

Lemma print_fs (line : string) (w : World) : fs (print line w) = fs w.
Proof. reflexivity. Qed.

(** Loading writes no file. *)
Lemma ac_load_one_fs {O : Type} `{!HasStateDict O} (obj : O) (filename : string)
    (w : World) :
  fs (snd (ActorCriticModel._load obj filename w)) = fs w.
Proof.
  unfold ActorCriticModel._load.
  destruct (fs w !! filename) as [blob|]; [|reflexivity].
  destruct (torch_load blob) as [sd|]; [|reflexivity].
  destruct (load_state_dict obj sd); reflexivity.
Qed.

(** The two copies of [_load] are the same function. *)
Lemma ppo_load_one_eq {O : Type} `{!HasStateDict O} (obj : O)
    (filename : string) (w : World) :
  PPOAgent._load obj filename w = ActorCriticModel._load obj filename w.
Proof. reflexivity. Qed.

(** A file that loads: [_load] returns what [load_state_dict] made. *)
Lemma ac_load_one_ok {O : Type} `{!HasStateDict O} (obj obj' : O)
    (filename : string) (w : World) (blob : Blob) (sd : StateDict) :
  fs w !! filename = Some blob ->
  torch_load blob = Some sd ->
  load_state_dict obj sd = Returned obj' ->
  ActorCriticModel._load obj filename w
  = (obj', print (" >>  " +:+ filename) w).
Proof.
  intros Hf Hl Hs. unfold ActorCriticModel._load.
  rewrite Hf, Hl, Hs. reflexivity.
Qed.

(** A file that is not there: nothing happens, nothing is printed. *)
Lemma ac_load_one_missing {O : Type} `{!HasStateDict O} (obj : O)
    (filename : string) (w : World) :
  fs w !! filename = None -> ActorCriticModel._load obj filename w = (obj, w).
Proof. intros Hf. unfold ActorCriticModel._load. now rewrite Hf. Qed.

(** A file that [torch.load] cannot read: the failure is printed and the
    object is untouched. *)
Lemma ac_load_one_unreadable {O : Type} `{!HasStateDict O} (obj : O)
    (filename : string) (w : World) (blob : Blob) :
  fs w !! filename = Some blob ->
  torch_load blob = None ->
  ActorCriticModel._load obj filename w
  = (obj, print " >> failed!" (print (" >>  " +:+ filename) w)).
Proof.
  intros Hf Hl. unfold ActorCriticModel._load. now rewrite Hf, Hl.
Qed.

(** A file whose content [load_state_dict] rejects: the failure is printed
    and the object is the one the library left when it raised. *)
Lemma ac_load_one_rejected {O : Type} `{!HasStateDict O} (obj obj' : O)
    (filename : string) (w : World) (blob : Blob) (sd : StateDict) :
  fs w !! filename = Some blob ->
  torch_load blob = Some sd ->
  load_state_dict obj sd = Raised obj' ->
  ActorCriticModel._load obj filename w
  = (obj', print " >> failed!" (print (" >>  " +:+ filename) w)).
Proof.
  intros Hf Hl Hs. unfold ActorCriticModel._load. now rewrite Hf, Hl, Hs.
Qed.

(** The actor of the loaded model comes from the [.actor] file alone. *)
Lemma ac_load_actor (self : ActorCriticModel.t) (filename : string) (w : World) :
  ActorCriticModel.actor (fst (ActorCriticModel.load self filename w))
  = fst (ActorCriticModel._load (ActorCriticModel.actor self)
           (filename +:+ ".actor")
           (print ("load policy from file " +:+ filename) w)).
Proof.
  unfold ActorCriticModel.load.
  destruct (ActorCriticModel._load (ActorCriticModel.actor self) _ _) as [a w1].
  destruct (ActorCriticModel._load (ActorCriticModel.critic self) _ _) as [c w2].
  reflexivity.
Qed.

Lemma ppo_load_model (self : PPOAgent.t) (filename : string) (w : World) :
  PPOAgent.actor_critic_model (fst (PPOAgent.load self filename w))
  = fst (ActorCriticModel.load (PPOAgent.actor_critic_model self) filename
           (print ("load policy from file " +:+ filename) w)).
Proof.
  unfold PPOAgent.load.
  destruct (ActorCriticModel.load _ _ _) as [m w1].
  destruct (PPOAgent._load _ _ _) as [o w2].
  reflexivity.
Qed.

(** Constructing an agent draws from the random generator and touches no
    file. *)
Lemma init_fs (state_size action_size : nat) (w : World) :
  fs (snd (PPOAgent.init state_size action_size w)) = fs w.
Proof.
  unfold PPOAgent.init, ActorCriticModel.init.
  destruct (Sequential _ (rng w)) as [a g].
  destruct (Sequential _ g) as [c g']. reflexivity.
Qed.

Lemma init_actor (state_size action_size : nat) (w : World) :
  ActorCriticModel.actor
    (PPOAgent.actor_critic_model (fst (PPOAgent.init state_size action_size w)))
  = fst (Sequential [Linear state_size 128; Tanh; Linear 128 128; Tanh;
                     Linear 128 action_size; Softmax] (rng w)).
Proof.
  unfold PPOAgent.init, ActorCriticModel.init.
  destruct (Sequential _ (rng w)) as [a g].
  destruct (Sequential _ g) as [c g']. reflexivity.
Qed.

End Checkpoints.

(** ** Training ([train_net], [end_episode]) *)

Section Training.
Context `{Torch}.

(** What no gradient step changes: the store and the hyperparameters. *)
Lemma optimize_inv (self : PPOAgent.t) (history : list Transition) :
  PPOAgent.memory (outcome_obj (PPOAgent.optimize self history))
  = PPOAgent.memory self
  /\ hyperparameters (outcome_obj (PPOAgent.optimize self history))
     = hyperparameters self.
Proof.
  unfold PPOAgent.optimize.
  destruct (gradient_step _ _ _ _ _ _ _); split; reflexivity.
Qed.

Lemma train_handle_inv (self : PPOAgent.t) (handle : Z) :
  PPOAgent.memory (outcome_obj (PPOAgent.train_handle self handle))
  = PPOAgent.memory self
  /\ hyperparameters (outcome_obj (PPOAgent.train_handle self handle))
     = hyperparameters self.
Proof.
  unfold PPOAgent.train_handle.
  destruct (0 <? length _)%nat; [apply optimize_inv | split; reflexivity].
Qed.

(** A handle without transitions is skipped. *)
Lemma train_handle_skip (self : PPOAgent.t) (handle : Z) :
  DataBuffers.get_transitions (PPOAgent.memory self) handle = [] ->
  PPOAgent.train_handle self handle = Returned self.
Proof. intros Hg. unfold PPOAgent.train_handle. now rewrite Hg. Qed.

(** Nothing runs after a call that raised. *)
Lemma fold_and_then_raised {X : Type} (f : PPOAgent.t -> X -> Outcome PPOAgent.t)
    (l : list X) (s : PPOAgent.t) :
  fold_left (fun r x => and_then r (fun s => f s x)) l (Raised s) = Raised s.
Proof. induction l as [|x l IH]; [reflexivity | exact IH]. Qed.

(** A quantity that no single call changes is not changed by the loop,
    whether the loop returns or raises. *)
Lemma fold_and_then_inv {X Y : Type} (inv : PPOAgent.t -> Y)
    (f : PPOAgent.t -> X -> Outcome PPOAgent.t) :
  (forall s x, inv (outcome_obj (f s x)) = inv s) ->
  forall (l : list X) (r : Outcome PPOAgent.t),
    inv (outcome_obj (fold_left (fun r x => and_then r (fun s => f s x)) l r))
    = inv (outcome_obj r).
Proof.
  intros Hf. induction l as [|x l IH]; intros r; [reflexivity|].
  simpl fold_left. rewrite IH. destruct r as [s|s]; simpl; [apply Hf | reflexivity].
Qed.

Lemma train_epoch_inv (self : PPOAgent.t) :
  PPOAgent.memory (outcome_obj (PPOAgent.train_epoch self))
  = PPOAgent.memory self
  /\ hyperparameters (outcome_obj (PPOAgent.train_epoch self))
     = hyperparameters self.
Proof.
  unfold PPOAgent.train_epoch. split.
  - rewrite (fold_and_then_inv PPOAgent.memory PPOAgent.train_handle);
      [reflexivity | intros; apply train_handle_inv].
  - rewrite (fold_and_then_inv hyperparameters PPOAgent.train_handle);
      [reflexivity | intros; apply train_handle_inv].
Qed.

(** The guarded loop over some handles is the loop of gradient steps over
    those of them that have transitions. *)
Lemma fold_train_handle_filter (m : DataBuffers.t) (handles : list Z)
    (r : Outcome PPOAgent.t) :
  PPOAgent.memory (outcome_obj r) = m ->
  fold_left (fun r handle => and_then r (fun s => PPOAgent.train_handle s handle))
    handles r
  = fold_left
      (fun r handle =>
         and_then r
           (fun s => PPOAgent.optimize s
                       (DataBuffers.get_transitions (PPOAgent.memory s) handle)))
      (List.filter
         (fun handle =>
            (0 <? length (DataBuffers.get_transitions m handle))%nat) handles)
      r.
Proof.
  revert r; induction handles as [|h handles IH]; intros r Hr; [reflexivity|].
  destruct r as [s|s]; simpl in Hr.
  - simpl. destruct (0 <? length (DataBuffers.get_transitions m h))%nat eqn:Hh.
    + simpl. unfold PPOAgent.train_handle at 2. rewrite Hr, Hh.
      apply IH. rewrite <- Hr. apply optimize_inv.
    + unfold PPOAgent.train_handle at 2. rewrite Hr, Hh. now apply IH.
  - rewrite !fold_and_then_raised. reflexivity.
Qed.

Lemma train_epoch_steps (self : PPOAgent.t) :
  PPOAgent.train_epoch self
  = steps_for (epoch_handles (PPOAgent.memory self)) self.
Proof.
  unfold PPOAgent.train_epoch, steps_for, epoch_handles.
  now apply fold_train_handle_filter.
Qed.

Lemma steps_inv (handles : list Z) (r : Outcome PPOAgent.t) :
  PPOAgent.memory
    (outcome_obj
       (fold_left
          (fun r handle =>
             and_then r
               (fun s => PPOAgent.optimize s
                           (DataBuffers.get_transitions (PPOAgent.memory s)
                              handle)))
          handles r))
  = PPOAgent.memory (outcome_obj r).
Proof.
  apply (fold_and_then_inv PPOAgent.memory
           (fun s handle =>
              PPOAgent.optimize s
                (DataBuffers.get_transitions (PPOAgent.memory s) handle))).
  intros s x. apply optimize_inv.
Qed.

(** The loop over the epochs is one loop of gradient steps over the handles
    of an epoch, repeated once per epoch. *)
Lemma fold_epochs_steps {X : Type} (m : DataBuffers.t) (epochs : list X)
    (r : Outcome PPOAgent.t) :
  PPOAgent.memory (outcome_obj r) = m ->
  fold_left (fun r _ => and_then r PPOAgent.train_epoch) epochs r
  = fold_left
      (fun r handle =>
         and_then r
           (fun s => PPOAgent.optimize s
                       (DataBuffers.get_transitions (PPOAgent.memory s) handle)))
      (concat (replicate (length epochs) (epoch_handles m))) r.
Proof.
  revert r; induction epochs as [|e epochs IH]; intros r Hr; [reflexivity|].
  simpl. rewrite fold_left_app. rewrite <- IH.
  - f_equal. destruct r as [s|s]; simpl in *.
    + rewrite train_epoch_steps, Hr. reflexivity.
    + now rewrite fold_and_then_raised.
  - rewrite steps_inv. exact Hr.
Qed.

Lemma length_range (n : nat) : length (PPOAgent.range n) = n.
Proof. unfold PPOAgent.range. now rewrite length_map, length_seq. Qed.

(** The state in which the two loops of [train_net] end. *)
Lemma train_net_loops (self : PPOAgent.t) :
  fold_left (fun r _ => and_then r PPOAgent.train_epoch)
    (PPOAgent.range (PPOAgent.K_epoch self)) (Returned self)
  = steps_for
      (concat (replicate (PPOAgent.K_epoch self)
                 (epoch_handles (PPOAgent.memory self)))) self.
Proof.
  rewrite (fold_epochs_steps (PPOAgent.memory self)) by reflexivity.
  now rewrite length_range.
Qed.

Lemma train_net_inv (self : PPOAgent.t) :
  hyperparameters (outcome_obj (PPOAgent.train_net self)) = hyperparameters self
  /\ match PPOAgent.train_net self with
     | Returned s => PPOAgent.memory s = DataBuffers.init
     | Raised s => PPOAgent.memory s = PPOAgent.memory self
     end.
Proof.
  unfold PPOAgent.train_net.
  pose proof (fold_and_then_inv hyperparameters
                (fun s (_ : Z) => PPOAgent.train_epoch s)
                (fun s _ => proj2 (train_epoch_inv s))
                (PPOAgent.range (PPOAgent.K_epoch self)) (Returned self)) as Hh.
  pose proof (fold_and_then_inv PPOAgent.memory
                (fun s (_ : Z) => PPOAgent.train_epoch s)
                (fun s _ => proj1 (train_epoch_inv s))
                (PPOAgent.range (PPOAgent.K_epoch self)) (Returned self)) as Hm.
  simpl in Hh, Hm.
  destruct (fold_left _ _ _) as [s|s]; simpl in *; split; auto.
Qed.

(** A store whose only handle is not 0: the epoch looks at handle 0 alone
    and finds nothing. *)
Lemma train_epoch_singleton (self : PPOAgent.t) (handle : Z)
    (l : list Transition) :
  handle <> 0%Z ->
  DataBuffers.memory (PPOAgent.memory self) = {[handle := l]} ->
  PPOAgent.train_epoch self = Returned self.
Proof.
  intros Hne Hm. unfold PPOAgent.train_epoch, DataBuffers.len.
  rewrite Hm, map_size_singleton. simpl.
  apply train_handle_skip. unfold DataBuffers.get_transitions.
  rewrite Hm, lookup_singleton_ne by exact Hne. reflexivity.
Qed.

(** Epochs that change nothing. *)
Lemma fold_epochs_fixpoint {X : Type} (self : PPOAgent.t) (epochs : list X) :
  PPOAgent.train_epoch self = Returned self ->
  fold_left (fun r _ => and_then r PPOAgent.train_epoch) epochs (Returned self)
  = Returned self.
Proof.
  intros He. induction epochs as [|e epochs IH]; [reflexivity|].
  simpl. now rewrite He.
Qed.

End Training.

(** ** The augmented state and the broadcasts of [MultiPolicy] *)

Section Composition.

Lemma fold_append {X Y : Type} (f : Y -> X) (l : list Y) (s : list X) :
  fold_left (fun acc y => acc ++ [f y]) l s = s ++ map f l.
Proof.
  revert s; induction l as [|y l IH]; intros s; simpl.
  - now rewrite app_nil_r.
  - now rewrite IH, <- app_assoc.
Qed.

Lemma extend_state_one_hot (n : nat) (state : list Q) (a : Z) :
  MultiPolicy.extend_state n state a = state ++ one_hot n a.
Proof. unfold MultiPolicy.extend_state, one_hot. apply fold_append. Qed.

Lemma length_one_hot (n : nat) (a : Z) : length (one_hot n a) = n.
Proof.
  unfold one_hot, MultiPolicy.arange. now rewrite !length_map, length_seq.
Qed.

Lemma one_hot_lookup (n : nat) (a : Z) (i : nat) :
  (i < n)%nat ->
  one_hot n a !! i
  = Some (if decide (Z.of_nat i = a) then 1%Q else 0%Q).
Proof.
  intros Hi. unfold one_hot, MultiPolicy.arange.
  rewrite !list_lookup_fmap, lookup_seq_lt by exact Hi. simpl.
  unfold MultiPolicy.int_of_bool.
  destruct (Z.eqb_spec a (Z.of_nat i)); case_decide; try reflexivity; lia.
Qed.

End Composition.

(** ** The concrete instances satisfy the assumptions made on the library *)

Section ToyFacts.

Lemma ToyTorch_laws : @TorchLaws Toy.ToyTorch.
Proof.
  split.
  - reflexivity.
  - reflexivity.
  - intros [arch wn] [arch' wm] Harch; simpl in *; subst arch'.
    exists (arch, wn). unfold Toy.toy_net_load; simpl.
    rewrite decide_True by reflexivity. split; reflexivity.
Qed.

End ToyFacts.

(** * The claims *)

(** C1 (discounted returns).  What the loop does on a transition marked
    [done]: whatever the trajectory and the discount, the return stored for
    that transition is 0, not the transition's own reward; the reward of a
    [done] step enters no return. *)
Theorem C1_done_return_is_zero (gamma : Q) (l : list Transition) (i : nat)
    (tr : Transition) :
  l !! i = Some tr ->
  t_done tr = true ->
  PPOAgent.discounted_rewards gamma l !! i = Some 0%Q.
Proof.
  intros Hl Hd. rewrite discounted_rewards_returns.
  exact (returns_lookup_done gamma l i tr Hl Hd).
Qed.

(** A single transition with reward 1 and [done = True], at gamma = 0.99:
    the return is 0. *)
Lemma C1_done_return_is_zero_witness :
  [Toy.toy_transition 1 true] !! 0%nat = Some (Toy.toy_transition 1 true)
  /\ t_done (Toy.toy_transition 1 true) = true
  /\ t_reward (Toy.toy_transition 1 true) = 1%Q
  /\ PPOAgent.discounted_rewards (99 # 100) [Toy.toy_transition 1 true] !! 0%nat
     = Some 0%Q.
Proof.
  split; [reflexivity|]. split; [reflexivity|]. split; [reflexivity|].
  apply (C1_done_return_is_zero (99 # 100) [Toy.toy_transition 1 true] 0
           (Toy.toy_transition 1 true)); reflexivity.
Defined.

(** C2 (checkpoint round trip).  Save an agent under a base path, construct
    a fresh agent of the same sizes and load the base path into it: at every
    state the loaded agent's action distribution is the saved agent's. *)
Theorem C2_save_load_roundtrip `{Torch} `{!TorchLaws} (saved : PPOAgent.t)
    (state_size action_size : nat) (filename : string) (w : World)
    (state : list Q) :
  net_arch (ActorCriticModel.actor (PPOAgent.actor_critic_model saved))
  = [Linear state_size 128; Tanh; Linear 128 128; Tanh;
     Linear 128 action_size; Softmax] ->
  ActorCriticModel.get_actor_dist
    (PPOAgent.actor_critic_model
       (save_then_load_fresh saved state_size action_size filename w)) state
  = ActorCriticModel.get_actor_dist (PPOAgent.actor_critic_model saved) state.
Proof.
  intros Harch. unfold save_then_load_fresh.
  pose proof (init_fs state_size action_size (PPOAgent.save saved filename w))
    as Hfs.
  pose proof (init_actor state_size action_size
                (PPOAgent.save saved filename w)) as Hact.
  destruct (PPOAgent.init state_size action_size _) as [fresh w1].
  simpl in Hfs, Hact.
  unfold ActorCriticModel.get_actor_dist.
  rewrite ppo_load_model, ac_load_actor.
  destruct (net_load_same_arch
              (ActorCriticModel.actor (PPOAgent.actor_critic_model saved))
              (ActorCriticModel.actor (PPOAgent.actor_critic_model fresh)))
    as (m' & Hload & Hdist).
  { rewrite Hact, net_arch_Sequential. now rewrite Harch. }
  erewrite ac_load_one_ok; [apply Hdist | | apply torch_load_save | exact Hload].
  rewrite !print_fs, Hfs. apply save_lookup_actor.
Qed.

(** The toy agent trained once, saved under [ckpt] and loaded into a fresh
    toy agent. *)
Lemma C2_save_load_roundtrip_witness :
  @net_arch Toy.ToyTorch
    (ActorCriticModel.actor (PPOAgent.actor_critic_model (Toy.toy_trained 0)))
  = [Linear 1 128; Tanh; Linear 128 128; Tanh; Linear 128 2; Softmax]
  /\ ActorCriticModel.get_actor_dist
       (PPOAgent.actor_critic_model
          (save_then_load_fresh (Toy.toy_trained 0) 1 2 "ckpt" Toy.toy_world))
       [1%Q]
     = ActorCriticModel.get_actor_dist
         (PPOAgent.actor_critic_model (Toy.toy_trained 0)) [1%Q].
Proof.
  split; [reflexivity|].
  apply (@C2_save_load_roundtrip Toy.ToyTorch ToyTorch_laws
           (Toy.toy_trained 0) 1 2 "ckpt" Toy.toy_world [1%Q]).
  reflexivity.
Defined.

(** C3 (training pass over all handles).  What [train_net] does when the
    only handle of the store is not 0: [range(len(memory))] is [[0]], handle
    0 has no transitions, so no gradient step is taken in any epoch; the
    networks, the optimiser and the loss are as before and the transitions
    of the handle are discarded. *)
Theorem C3_noncontiguous_handle_skipped `{Torch} (self : PPOAgent.t)
    (handle : Z) (tr : Transition) (l : list Transition) :
  handle <> 0%Z ->
  DataBuffers.memory (PPOAgent.memory self) = {[handle := tr :: l]} ->
  PPOAgent.train_net self
  = Returned (PPOAgent.set_memory self DataBuffers.init).
Proof.
  intros Hne Hm. unfold PPOAgent.train_net.
  rewrite fold_epochs_fixpoint; [reflexivity|].
  exact (train_epoch_singleton self handle (tr :: l) Hne Hm).
Qed.

(** One transition recorded for handle 5 of the toy agent: after
    [train_net] the agent is the fresh one with an empty store, where the
    same transition recorded for handle 0 moves the actor by 30 steps. *)
Lemma C3_noncontiguous_handle_skipped_witness :
  5%Z <> 0%Z
  /\ DataBuffers.memory
       (PPOAgent.memory
          (PPOAgent.step Toy.toy_agent 5 [1%Q] 0%Z 1%Q [1%Q] true))
     = {[5%Z := [mkTransition [1%Q] 0%Z 1%Q [1%Q] 0%Q true]]}
  /\ PPOAgent.train_net
       (PPOAgent.step Toy.toy_agent 5 [1%Q] 0%Z 1%Q [1%Q] true)
     = Returned
         (PPOAgent.set_memory
            (PPOAgent.step Toy.toy_agent 5 [1%Q] 0%Z 1%Q [1%Q] true)
            DataBuffers.init)
  /\ snd (ActorCriticModel.actor
            (PPOAgent.actor_critic_model (Toy.toy_trained 5))) = 0%Z
  /\ snd (ActorCriticModel.actor
            (PPOAgent.actor_critic_model (Toy.toy_trained 0))) = 30%Z.
Proof.
  split; [discriminate|]. split; [reflexivity|].
  split; [|split; reflexivity].
  apply (@C3_noncontiguous_handle_skipped Toy.ToyTorch
           (PPOAgent.step Toy.toy_agent 5 [1%Q] 0%Z 1%Q [1%Q] true) 5
           (mkTransition [1%Q] 0%Z 1%Q [1%Q] 0%Q true) []);
    [discriminate | reflexivity].
Defined.

(** C4 (checkpoint artifacts).  What [save] writes for the critic: its
    parameters go to [P + ".value"]; the file [P + ".critic"], the one [load]
    reads, is left as it was. *)
Theorem C4_save_writes_value_not_critic `{Torch} (self : PPOAgent.t)
    (filename : string) (w : World) :
  fs (PPOAgent.save self filename w) !! (filename +:+ ".value")
  = Some (torch_save (net_state_dict
            (ActorCriticModel.critic (PPOAgent.actor_critic_model self))))
  /\ fs (PPOAgent.save self filename w) !! (filename +:+ ".critic")
     = fs w !! (filename +:+ ".critic")
  /\ dom (fs (PPOAgent.save self filename w))
     = {[filename +:+ ".actor"; filename +:+ ".value";
         filename +:+ ".optimizer"]} ∪ dom (fs w).
Proof.
  split; [apply save_lookup_value|]. split; [apply save_lookup_critic|].
  rewrite save_fs, !dom_insert_L.
  apply set_eq. intros path.
  rewrite !elem_of_union, !elem_of_singleton. tauto.
Qed.

(** C5 (the store after [end_episode]).  What [end_episode] does to the
    store: [end_episode(False)] returns the agent as it was;
    [end_episode(True)] is [train_net], and when that returns the store has
    no handle, but when a gradient step raises, the exception leaves
    [end_episode] before [memory.reset()] and the store is as it was before
    the call. *)
Theorem C5_end_episode_store `{Torch} (self : PPOAgent.t) :
  PPOAgent.end_episode self false = Returned self
  /\ match PPOAgent.end_episode self true with
     | Returned s => DataBuffers.len (PPOAgent.memory s) = 0%nat
     | Raised s => PPOAgent.memory s = PPOAgent.memory self
     end.
Proof.
  split; [reflexivity|]. unfold PPOAgent.end_episode.
  destruct (train_net_inv self) as [_ Hm].
  destruct (PPOAgent.train_net self) as [s|s]; [|exact Hm].
  rewrite Hm. reflexivity.
Qed.

(** One transition recorded for handle 0, in the library instance with nan:
    the first epoch makes the weights nan, the gradient step of the second
    epoch raises, and the store still has its handle. *)
Lemma C5_end_episode_store_witness :
  (exists s, @PPOAgent.end_episode Toy.TensorTorch Toy.one_transition_agent true
             = Raised s
             /\ DataBuffers.len (PPOAgent.memory s) = 1%nat)
  /\ DataBuffers.len (PPOAgent.memory Toy.one_transition_agent) = 1%nat.
Proof.
  split; [|reflexivity].
  assert (Hrun : exists s,
            @PPOAgent.end_episode Toy.TensorTorch Toy.one_transition_agent true
            = Raised s).
  { vm_compute. eexists. reflexivity. }
  destruct Hrun as [s Hrun]. exists s. split; [exact Hrun|].
  destruct (@C5_end_episode_store Toy.TensorTorch Toy.one_transition_agent)
    as [_ Hstore].
  rewrite Hrun in Hstore. rewrite Hstore. reflexivity.
Defined.

(** C6 (augmented state).  [MultiPolicy.act] asks the advisor at the raw
    state with exploration 0; its own result (action, PPO core, world) is
    the result of the PPO core's [act] called, in the world the advisor
    left, on a state of length [state_size + action_size] whose first
    [state_size] entries are the raw state and among whose last
    [action_size] entries the one at the index of the advisor's action is 1
    and every other one is 0. *)
Theorem C6_augmented_state {W A P : Type} `{!Policy W A} `{!Policy W P}
    (self : @MultiPolicy.t A P) (handle : Z) (state : list Q) (eps : Q) (w : W) :
  length state = MultiPolicy.state_size self ->
  (0 <= fst (fst (p_act (MultiPolicy.deadlock_avoidance_policy self)
                    handle state 0%Q w))
   < Z.of_nat (MultiPolicy.action_size self))%Z ->
  exists (extended_state : list Q) (k : nat),
    (fst (fst (MultiPolicy.act self handle state eps w)),
     MultiPolicy.ppo_policy (snd (fst (MultiPolicy.act self handle state eps w))),
     snd (MultiPolicy.act self handle state eps w))
    = p_act (MultiPolicy.ppo_policy self) handle extended_state eps
        (snd (p_act (MultiPolicy.deadlock_avoidance_policy self)
                handle state 0%Q w))
    /\ length extended_state
       = (MultiPolicy.state_size self + MultiPolicy.action_size self)%nat
    /\ take (MultiPolicy.state_size self) extended_state = state
    /\ (k < MultiPolicy.action_size self)%nat
    /\ Z.of_nat k
       = fst (fst (p_act (MultiPolicy.deadlock_avoidance_policy self)
                     handle state 0%Q w))
    /\ extended_state !! (MultiPolicy.state_size self + k)%nat = Some 1%Q
    /\ forall i, (i < MultiPolicy.action_size self)%nat -> i <> k ->
         extended_state !! (MultiPolicy.state_size self + i)%nat = Some 0%Q.
Proof.
  intros Hlen Ha. unfold MultiPolicy.act.
  destruct (p_act (MultiPolicy.deadlock_avoidance_policy self) handle state 0%Q w)
    as [[a d] w1]. simpl fst in *. simpl snd.
  assert (Hext : forall i, (i < MultiPolicy.action_size self)%nat ->
            (state ++ one_hot (MultiPolicy.action_size self) a)
              !! (MultiPolicy.state_size self + i)%nat
            = Some (if decide (Z.of_nat i = a) then 1%Q else 0%Q)).
  { intros i Hi. rewrite <- Hlen, lookup_app_r by lia.
    replace (length state + i - length state)%nat with i by lia.
    now apply one_hot_lookup. }
  exists (MultiPolicy.extend_state (MultiPolicy.action_size self) state a).
  exists (Z.to_nat a). split.
  { destruct (p_act (MultiPolicy.ppo_policy self) handle _ eps w1)
      as [[action_ppo p] w2]. reflexivity. }
  rewrite extend_state_one_hot.
  split; [now rewrite length_app, length_one_hot, Hlen|].
  split; [rewrite <- Hlen; now rewrite take_app_length|].
  split; [lia|]. split; [lia|]. split.
  - rewrite Hext by lia. rewrite decide_True by lia. reflexivity.
  - intros i Hi Hne. rewrite Hext by exact Hi.
    rewrite decide_False by lia. reflexivity.
Qed.

(** The composed agent of logging sub-policies, whose advisor suggests
    action 1, at the state [1; 2; 3; 4] with exploration 1/2: the log shows
    the advisor asked at the raw state with exploration 0 and the PPO core
    at [1; 2; 3; 4; 0; 1] with exploration 1/2. *)
Lemma C6_augmented_state_witness :
  length [1; 2; 3; 4]%Q = MultiPolicy.state_size Toy.trace_multi_policy
  /\ (0 <= 1 < Z.of_nat (MultiPolicy.action_size Toy.trace_multi_policy))%Z
  /\ (exists (extended_state : list Q) (k : nat),
        (fst (fst (@MultiPolicy.act _ _ _ (Toy.trace_policy Advisor)
                     (Toy.trace_policy PPO) Toy.trace_multi_policy 0%Z
                     [1; 2; 3; 4]%Q (1 # 2) [])),
         MultiPolicy.ppo_policy
           (snd (fst (@MultiPolicy.act _ _ _ (Toy.trace_policy Advisor)
                        (Toy.trace_policy PPO) Toy.trace_multi_policy 0%Z
                        [1; 2; 3; 4]%Q (1 # 2) []))),
         snd (@MultiPolicy.act _ _ _ (Toy.trace_policy Advisor)
                (Toy.trace_policy PPO) Toy.trace_multi_policy 0%Z
                [1; 2; 3; 4]%Q (1 # 2) []))
        = @p_act _ _ (Toy.trace_policy PPO) 0%Z 0%Z extended_state (1 # 2)
            [CAct Advisor 0%Z [1; 2; 3; 4]%Q 0%Q]
        /\ length extended_state = (4 + 2)%nat
        /\ take 4 extended_state = [1; 2; 3; 4]%Q
        /\ (k < 2)%nat
        /\ Z.of_nat k = 1%Z
        /\ extended_state !! (4 + k)%nat = Some 1%Q
        /\ forall i, (i < 2)%nat -> i <> k ->
             extended_state !! (4 + i)%nat = Some 0%Q)
  /\ snd (@MultiPolicy.act _ _ _ (Toy.trace_policy Advisor)
            (Toy.trace_policy PPO) Toy.trace_multi_policy 0%Z
            [1; 2; 3; 4]%Q (1 # 2) [])
     = [CAct Advisor 0%Z [1; 2; 3; 4]%Q 0%Q;
        CAct PPO 0%Z [1; 2; 3; 4; 0; 1]%Q (1 # 2)].
Proof.
  split; [reflexivity|]. split; [simpl; lia|]. split; [|reflexivity].
  apply (@C6_augmented_state _ _ _ (Toy.trace_policy Advisor)
           (Toy.trace_policy PPO) Toy.trace_multi_policy 0%Z
           [1; 2; 3; 4]%Q (1 # 2) []);
    [reflexivity | simpl; lia].
Defined.

(** C7 as stated fails: with sub-policies that log the calls they receive,
    the log of [load] has the PPO core's [load] first and the advisor's
    second. *)
Lemma C7_load_not_advisor_first :
  snd (@MultiPolicy.load _ _ _ (Toy.trace_policy Advisor) (Toy.trace_policy PPO)
         Toy.trace_multi_policy "ckpt" [])
  = [CLoad PPO "ckpt"; CLoad Advisor "ckpt"]
  /\ ~ advisor_first
         (snd (@MultiPolicy.load _ _ _ (Toy.trace_policy Advisor)
                 (Toy.trace_policy PPO) Toy.trace_multi_policy "ckpt" [])).
Proof.
  split; [reflexivity|]. unfold advisor_first. simpl. discriminate.
Qed.

(** C7 (order of the broadcasts), amended.  Each of the six operations calls
    both sub-policies once, in an order fixed per operation.  [load],
    [save], [reset] and [test] call the PPO core first, in the world the
    caller gives, and the advisor second, in the world the PPO core left;
    [start_step] and [end_step] call the advisor first, in the world the
    caller gives, and the PPO core second, in the world the advisor left.
    The layer keeps what each call returns. *)
Theorem C7_broadcast_order {W A P : Type} `{!Policy W A} `{!Policy W P}
    (self : @MultiPolicy.t A P) (filename : string) (train : bool) (w : W) :
  (let ppo := p_load (MultiPolicy.ppo_policy self) filename w in
   let advisor :=
     p_load (MultiPolicy.deadlock_avoidance_policy self) filename (snd ppo) in
   MultiPolicy.ppo_policy (fst (MultiPolicy.load self filename w)) = fst ppo
   /\ MultiPolicy.deadlock_avoidance_policy
        (fst (MultiPolicy.load self filename w)) = fst advisor
   /\ snd (MultiPolicy.load self filename w) = snd advisor)
  /\ (let ppo := p_save (MultiPolicy.ppo_policy self) filename w in
      let advisor :=
        p_save (MultiPolicy.deadlock_avoidance_policy self) filename (snd ppo) in
      MultiPolicy.ppo_policy (fst (MultiPolicy.save self filename w)) = fst ppo
      /\ MultiPolicy.deadlock_avoidance_policy
           (fst (MultiPolicy.save self filename w)) = fst advisor
      /\ snd (MultiPolicy.save self filename w) = snd advisor)
  /\ (let ppo := p_reset (MultiPolicy.ppo_policy self) w in
      let advisor :=
        p_reset (MultiPolicy.deadlock_avoidance_policy self) (snd ppo) in
      MultiPolicy.ppo_policy (fst (MultiPolicy.reset self w)) = fst ppo
      /\ MultiPolicy.deadlock_avoidance_policy (fst (MultiPolicy.reset self w))
         = fst advisor
      /\ snd (MultiPolicy.reset self w) = snd advisor)
  /\ (let ppo := p_test (MultiPolicy.ppo_policy self) w in
      let advisor :=
        p_test (MultiPolicy.deadlock_avoidance_policy self) (snd ppo) in
      MultiPolicy.ppo_policy (fst (MultiPolicy.test self w)) = fst ppo
      /\ MultiPolicy.deadlock_avoidance_policy (fst (MultiPolicy.test self w))
         = fst advisor
      /\ snd (MultiPolicy.test self w) = snd advisor)
  /\ (let advisor :=
        p_start_step (MultiPolicy.deadlock_avoidance_policy self) train w in
      let ppo := p_start_step (MultiPolicy.ppo_policy self) train (snd advisor) in
      MultiPolicy.deadlock_avoidance_policy
        (fst (MultiPolicy.start_step self train w)) = fst advisor
      /\ MultiPolicy.ppo_policy (fst (MultiPolicy.start_step self train w))
         = fst ppo
      /\ snd (MultiPolicy.start_step self train w) = snd ppo)
  /\ (let advisor :=
        p_end_step (MultiPolicy.deadlock_avoidance_policy self) train w in
      let ppo := p_end_step (MultiPolicy.ppo_policy self) train (snd advisor) in
      MultiPolicy.deadlock_avoidance_policy
        (fst (MultiPolicy.end_step self train w)) = fst advisor
      /\ MultiPolicy.ppo_policy (fst (MultiPolicy.end_step self train w))
         = fst ppo
      /\ snd (MultiPolicy.end_step self train w) = snd ppo).
Proof.
  split; [|split; [|split; [|split; [|split]]]]; cbv zeta.
  - unfold MultiPolicy.load.
    destruct (p_load (MultiPolicy.ppo_policy self) filename w) as [p w1].
    simpl snd.
    now destruct (p_load (MultiPolicy.deadlock_avoidance_policy self) filename w1).
  - unfold MultiPolicy.save.
    destruct (p_save (MultiPolicy.ppo_policy self) filename w) as [p w1].
    simpl snd.
    now destruct (p_save (MultiPolicy.deadlock_avoidance_policy self) filename w1).
  - unfold MultiPolicy.reset.
    destruct (p_reset (MultiPolicy.ppo_policy self) w) as [p w1]. simpl snd.
    now destruct (p_reset (MultiPolicy.deadlock_avoidance_policy self) w1).
  - unfold MultiPolicy.test.
    destruct (p_test (MultiPolicy.ppo_policy self) w) as [p w1]. simpl snd.
    now destruct (p_test (MultiPolicy.deadlock_avoidance_policy self) w1).
  - unfold MultiPolicy.start_step.
    destruct (p_start_step (MultiPolicy.deadlock_avoidance_policy self) train w)
      as [d w1]. simpl snd.
    now destruct (p_start_step (MultiPolicy.ppo_policy self) train w1).
  - unfold MultiPolicy.end_step.
    destruct (p_end_step (MultiPolicy.deadlock_avoidance_policy self) train w)
      as [d w1]. simpl snd.
    now destruct (p_end_step (MultiPolicy.ppo_policy self) train w1).
Qed.

(** C8 as stated fails: in the library instance whose [load_state_dict]
    copies every tensor that fits before it raises, loading the actor of a
    3-dimensional agent into the actor of a 1-dimensional agent prints the
    failure and returns an actor that is not the one before: every tensor
    but the first weight has taken the values of the file. *)
Lemma C8_partial_load_changes_object :
  snd (@ActorCriticModel._load Toy.TensorTorch _ _ Toy.tensor_actor
         "ckpt.actor" Toy.tensor_partial_world)
  = @mkWorld Toy.TensorTorch (@fs Toy.TensorTorch Toy.tensor_partial_world)
      [" >>  ckpt.actor"; " >> failed!"] 0%nat
  /\ fst (@ActorCriticModel._load Toy.TensorTorch _ _ Toy.tensor_actor
            "ckpt.actor" Toy.tensor_partial_world)
     <> Toy.tensor_actor
  /\ snd (fst (@ActorCriticModel._load Toy.TensorTorch _ _ Toy.tensor_actor
                 "ckpt.actor" Toy.tensor_partial_world))
     = [([128; 1], Some 0%Z); ([128], Some 7%Z);
        ([128; 128], Some 7%Z); ([128], Some 7%Z);
        ([2; 128], Some 7%Z); ([2], Some 7%Z)]%nat.
Proof.
  split; [reflexivity|]. split; [|reflexivity].
  intros Heq. apply (f_equal snd) in Heq. vm_compute in Heq. discriminate Heq.
Qed.

(** C8 (tolerant loading), amended.  For either copy of [_load]: a path with
    no file returns the object and the world as they were, nothing printed;
    a file that is there and does not load makes [_load] return normally,
    with the failure printed after the path, and the object is untouched
    when [torch.load] could not read the file, and is as [load_state_dict]
    left it when that is what raised. *)
Theorem C8_load_tolerates_bad_files `{Torch} {O : Type} `{!HasStateDict O}
    (obj : O) (filename : string) (w : World) :
  (fs w !! filename = None ->
   ActorCriticModel._load obj filename w = (obj, w)
   /\ PPOAgent._load obj filename w = (obj, w))
  /\ (forall blob, fs w !! filename = Some blob -> torch_load blob = None ->
      ActorCriticModel._load obj filename w
      = (obj, print " >> failed!" (print (" >>  " +:+ filename) w))
      /\ PPOAgent._load obj filename w
         = (obj, print " >> failed!" (print (" >>  " +:+ filename) w)))
  /\ (forall blob sd obj',
        fs w !! filename = Some blob -> torch_load blob = Some sd ->
        load_state_dict obj sd = Raised obj' ->
        ActorCriticModel._load obj filename w
        = (obj', print " >> failed!" (print (" >>  " +:+ filename) w))
        /\ PPOAgent._load obj filename w
           = (obj', print " >> failed!" (print (" >>  " +:+ filename) w))).
Proof.
  split; [|split].
  - intros Hf. split; [|etrans; [apply ppo_load_one_eq|]];
      now apply ac_load_one_missing.
  - intros blob Hf Hl. split; [|etrans; [apply ppo_load_one_eq|]];
      now apply (ac_load_one_unreadable obj filename w blob).
  - intros blob sd obj' Hf Hl Hs. split; [|etrans; [apply ppo_load_one_eq|]];
      now apply (ac_load_one_rejected obj obj' filename w blob sd).
Qed.

(** The toy actor and the path [ckpt.actor]: in the empty world the file is
    missing; in [toy_bad_world] it holds a network of another shape, which
    the toy [load_state_dict] rejects without touching the actor. *)
Lemma C8_load_tolerates_bad_files_witness :
  @ActorCriticModel._load Toy.ToyTorch _ _
    (ActorCriticModel.actor (PPOAgent.actor_critic_model Toy.toy_agent))
    "ckpt.actor" Toy.toy_world
  = (ActorCriticModel.actor (PPOAgent.actor_critic_model Toy.toy_agent),
     Toy.toy_world)
  /\ @ActorCriticModel._load Toy.ToyTorch _ _
       (ActorCriticModel.actor (PPOAgent.actor_critic_model Toy.toy_agent))
       "ckpt.actor" Toy.toy_bad_world
     = (ActorCriticModel.actor (PPOAgent.actor_critic_model Toy.toy_agent),
        {| fs := fs Toy.toy_bad_world;
           console := [" >>  ckpt.actor"; " >> failed!"];
           rng := 0%nat |}).
Proof.
  split.
  - apply (@C8_load_tolerates_bad_files Toy.ToyTorch _ _
             (ActorCriticModel.actor (PPOAgent.actor_critic_model Toy.toy_agent))
             "ckpt.actor" Toy.toy_world).
    reflexivity.
  - apply (proj2 (proj2 (@C8_load_tolerates_bad_files Toy.ToyTorch _ _
             (ActorCriticModel.actor (PPOAgent.actor_critic_model Toy.toy_agent))
             "ckpt.actor" Toy.toy_bad_world))
             (Some (Some [Linear 3 3], 7%Z)) (Some [Linear 3 3], 7%Z));
      reflexivity.
Defined.

(** C9 (no exploration blending).  [PPOAgent.act] returns the same action
    and world for any two values of the exploration parameter: a sample of
    the actor's distribution at the state, drawn from the world's random
    generator. *)
Theorem C9_act_ignores_eps `{Torch} (self : PPOAgent.t) (state : list Q)
    (eps1 eps2 : option Q) (w : World) :
  PPOAgent.act self state eps1 w = PPOAgent.act self state eps2 w
  /\ fst (PPOAgent.act self state eps1 w)
     = fst (dist_sample
              (net_dist (ActorCriticModel.actor (PPOAgent.actor_critic_model self))
                 state) (rng w)).
Proof.
  split; [reflexivity|]. unfold PPOAgent.act, ActorCriticModel.get_actor_dist.
  now destruct (dist_sample _ (rng w)).
Qed.



(** * Further properties of the code *)

(** ** The trajectory store *)

Section Store.

Lemma push_get (self : DataBuffers.t) (handle handle' : Z) (t : Transition) :
  DataBuffers.get_transitions (DataBuffers.push_transition self handle t) handle'
  = if decide (handle = handle')
    then DataBuffers.get_transitions self handle ++ [t]
    else DataBuffers.get_transitions self handle'.
Proof.
  unfold DataBuffers.push_transition, DataBuffers.get_transitions. simpl.
  case_decide as Hh.
  - subst handle'. now rewrite lookup_insert_eq.
  - now rewrite lookup_insert_ne.
Qed.

Lemma push_len (self : DataBuffers.t) (handle : Z) (t : Transition) :
  DataBuffers.len (DataBuffers.push_transition self handle t)
  = match DataBuffers.memory self !! handle with
    | Some _ => DataBuffers.len self
    | None => S (DataBuffers.len self)
    end.
Proof.
  unfold DataBuffers.push_transition, DataBuffers.len. simpl.
  destruct (DataBuffers.memory self !! handle) eqn:Hl.
  - now apply map_size_insert_Some.
  - now apply map_size_insert_None.
Qed.

(** Reading after a push: the pushed handle has the transition at the end of
    its sequence, every other handle (also one never seen, which reads as
    the empty sequence) reads as before. *)
Theorem push_transition_get (self : DataBuffers.t) (handle handle' : Z)
    (t : Transition) :
  DataBuffers.get_transitions (DataBuffers.push_transition self handle t) handle
  = DataBuffers.get_transitions self handle ++ [t]
  /\ (handle <> handle' ->
      DataBuffers.get_transitions (DataBuffers.push_transition self handle t)
        handle'
      = DataBuffers.get_transitions self handle').
Proof.
  split.
  - rewrite push_get. now rewrite decide_True.
  - intros Hne. rewrite push_get. now rewrite decide_False.
Qed.

Lemma push_transition_get_witness :
  5%Z <> 0%Z
  /\ DataBuffers.get_transitions
       (DataBuffers.push_transition Toy.toy_store 5 (Toy.toy_transition 2 false))
       5
     = [Toy.toy_transition 2 false]
  /\ DataBuffers.get_transitions
       (DataBuffers.push_transition Toy.toy_store 5 (Toy.toy_transition 2 false))
       0
     = [Toy.toy_transition 1 true].
Proof.
  destruct (push_transition_get Toy.toy_store 5 0 (Toy.toy_transition 2 false))
    as [Hsame Hother].
  split; [discriminate|]. split; [exact Hsame | apply Hother; discriminate].
Defined.

(** [len] counts handles: a push for a handle already in the store leaves it,
    a push for a new handle adds one. *)
Theorem push_transition_len (self : DataBuffers.t) (handle : Z)
    (t : Transition) :
  DataBuffers.len (DataBuffers.push_transition self handle t)
  = if decide (handle ∈ dom (DataBuffers.memory self))
    then DataBuffers.len self
    else S (DataBuffers.len self).
Proof.
  rewrite push_len. case_decide as Hd.
  - apply elem_of_dom in Hd as [v ->]. reflexivity.
  - apply not_elem_of_dom in Hd. now rewrite Hd.
Qed.

Lemma push_all_get (ts : list Transition) (self : DataBuffers.t)
    (handle handle' : Z) :
  DataBuffers.get_transitions (push_all self handle ts) handle'
  = if decide (handle = handle')
    then DataBuffers.get_transitions self handle ++ ts
    else DataBuffers.get_transitions self handle'.
Proof.
  unfold push_all. revert self; induction ts as [|t ts IH]; intros self; simpl.
  - case_decide; [subst; now rewrite app_nil_r | reflexivity].
  - rewrite IH, !push_get. case_decide as Hh.
    + rewrite decide_True by reflexivity. now rewrite <- app_assoc.
    + reflexivity.
Qed.

(** Pushes for one handle keep the order of arrival and leave the other
    handles alone. *)
Theorem push_all_keeps_order (ts : list Transition) (self : DataBuffers.t)
    (handle handle' : Z) :
  DataBuffers.get_transitions (push_all self handle ts) handle
  = DataBuffers.get_transitions self handle ++ ts
  /\ (handle <> handle' ->
      DataBuffers.get_transitions (push_all self handle ts) handle'
      = DataBuffers.get_transitions self handle').
Proof.
  split.
  - rewrite push_all_get. now rewrite decide_True.
  - intros Hne. rewrite push_all_get. now rewrite decide_False.
Qed.

Lemma push_all_keeps_order_witness :
  5%Z <> 0%Z
  /\ DataBuffers.get_transitions
       (push_all DataBuffers.init 5
          [Toy.toy_transition 1 false; Toy.toy_transition 2 true]) 5
     = [Toy.toy_transition 1 false; Toy.toy_transition 2 true]
  /\ DataBuffers.get_transitions
       (push_all DataBuffers.init 5
          [Toy.toy_transition 1 false; Toy.toy_transition 2 true]) 0
     = [].
Proof.
  split; [discriminate|].
  destruct (push_all_keeps_order
              [Toy.toy_transition 1 false; Toy.toy_transition 2 true]
              DataBuffers.init 5 0) as [Hsame Hother].
  split; [exact Hsame | apply Hother; discriminate].
Defined.

(** However many transitions one handle has pushed into an empty store, the
    store has size 1: the size is not the number of transitions. *)
Theorem push_all_len_one (t : Transition) (ts : list Transition) (handle : Z) :
  DataBuffers.len (push_all DataBuffers.init handle (t :: ts)) = 1%nat.
Proof.
  unfold push_all. simpl fold_left.
  assert (Hgen : forall (l : list Transition) (b : DataBuffers.t),
            is_Some (DataBuffers.memory b !! handle) ->
            DataBuffers.len
              (fold_left (fun b t => DataBuffers.push_transition b handle t) l b)
            = DataBuffers.len b).
  { induction l as [|x l IH]; intros b [v Hv]; simpl; [reflexivity|].
    rewrite IH.
    - rewrite push_len. now rewrite Hv.
    - unfold DataBuffers.push_transition; simpl.
      rewrite lookup_insert_eq. eauto. }
  rewrite Hgen.
  - rewrite push_len. reflexivity.
  - unfold DataBuffers.push_transition; simpl. rewrite lookup_insert_eq. eauto.
Qed.

End Store.

(** ** Recording and converting transitions *)

Section Recording.
Context `{Torch}.


(** The lists handed to the tensors are aligned with the transitions, in
    chronological order: one entry per transition, [dones] holding 1 for a
    [done] step and 0 otherwise, [rewards] the standardised discounted
    returns. *)
Theorem convert_batch_aligned (self : PPOAgent.t) (l : list Transition) :
  PPOAgent._convert_transitions_to_torch_tensors self l
  = {| states := map t_state l;
       actions := map t_action l;
       rewards := standardize (PPOAgent.discounted_rewards (PPOAgent.gamma self) l);
       states_next := map t_next_state l;
       dones := map (fun tr => if t_done tr then 1%Q else 0%Q) l;
       prob_actions := map t_logprob l |}
  /\ length (PPOAgent.discounted_rewards (PPOAgent.gamma self) l) = length l.
Proof.
  split.
  - unfold PPOAgent._convert_transitions_to_torch_tensors,
      PPOAgent.discounted_rewards, PPOAgent.convert_loop.
    now rewrite convert_loop_fold.
  - rewrite discounted_rewards_returns. apply length_returns.
Qed.

End Recording.

Section MoreReturns.

(** The backward loop, read forwards: the return of a step is 0 when the
    step is [done], and otherwise its reward plus [gamma] times the return
    of the next step (0 after the last step). *)
Theorem discounted_rewards_cons (gamma : Q) (tr : Transition)
    (l : list Transition) :
  PPOAgent.discounted_rewards gamma (tr :: l)
  = (if t_done tr then 0%Q
     else (t_reward tr
           + gamma * hd 0%Q (PPOAgent.discounted_rewards gamma l))%Q)
    :: PPOAgent.discounted_rewards gamma l.
Proof. rewrite !discounted_rewards_returns. reflexivity. Qed.

Lemma returns_app_done (gamma : Q) (pre post : list Transition)
    (d : Transition) :
  t_done d = true ->
  returns gamma (pre ++ d :: post)
  = returns gamma (pre ++ [d]) ++ returns gamma post.
Proof.
  intros Hd. induction pre as [|tr pre IH]; simpl.
  - now rewrite Hd.
  - rewrite IH. destruct pre; simpl; [now rewrite Hd|]. reflexivity.
Qed.

(** A [done] step is a boundary: the returns up to and including it are those
    of the trajectory cut after it, whatever follows; the returns after it
    are those of the rest on its own. *)
Theorem done_step_cuts_returns (gamma : Q) (pre post : list Transition)
    (d : Transition) :
  t_done d = true ->
  PPOAgent.discounted_rewards gamma (pre ++ d :: post)
  = PPOAgent.discounted_rewards gamma (pre ++ [d])
    ++ PPOAgent.discounted_rewards gamma post.
Proof.
  intros Hd. rewrite !discounted_rewards_returns. now apply returns_app_done.
Qed.

Lemma done_step_cuts_returns_witness :
  t_done (Toy.toy_transition 2 true) = true
  /\ PPOAgent.discounted_rewards (1 # 2)
       ([Toy.toy_transition 1 false] ++ Toy.toy_transition 2 true
          :: [Toy.toy_transition 4 false])
     = PPOAgent.discounted_rewards (1 # 2)
         ([Toy.toy_transition 1 false] ++ [Toy.toy_transition 2 true])
       ++ PPOAgent.discounted_rewards (1 # 2) [Toy.toy_transition 4 false].
Proof.
  split; [reflexivity|].
  apply (done_step_cuts_returns (1 # 2) [Toy.toy_transition 1 false]
           [Toy.toy_transition 4 false] (Toy.toy_transition 2 true)).
  reflexivity.
Defined.

End MoreReturns.

(** ** More on training *)

Section MoreTraining.
Context `{Torch}.

(** A handle with no transitions is skipped: nothing of the agent changes. *)
Theorem train_handle_without_transitions (self : PPOAgent.t) (handle : Z) :
  DataBuffers.get_transitions (PPOAgent.memory self) handle = [] ->
  PPOAgent.train_handle self handle = Returned self.
Proof. apply train_handle_skip. Qed.

(** Training changes no hyperparameter (learning rate, discount, clip,
    number of epochs, loss and entropy weights), whether it returns or
    raises. *)
Theorem train_net_keeps_hyperparameters (self : PPOAgent.t) :
  hyperparameters (outcome_obj (PPOAgent.train_net self))
  = hyperparameters self.
Proof. apply train_net_inv. Qed.

(** [train_net] is one gradient step after the other for the handles of
    [range(len(memory))] that have transitions in the store as it was when
    training began, taken in order and repeated [K_epoch] times, stopping at
    the first step that raises.  When no step raises the store is then
    emptied; when one raises the agent is left as that step left it, the
    store not emptied. *)
Theorem train_net_epochs_same_handles (self : PPOAgent.t) :
  PPOAgent.train_net self
  = match
      steps_for
        (concat (replicate (PPOAgent.K_epoch self)
                   (epoch_handles (PPOAgent.memory self)))) self
    with
    | Returned s => Returned (PPOAgent.set_memory s DataBuffers.init)
    | Raised s => Raised s
    end.
Proof.
  unfold PPOAgent.train_net. cbv zeta. rewrite train_net_loops.
  destruct (steps_for _ self); reflexivity.
Qed.

(** Training on an empty store takes no gradient step and returns the agent
    as it was. *)
Theorem train_net_empty_store (self : PPOAgent.t) :
  DataBuffers.memory (PPOAgent.memory self) = ∅ ->
  PPOAgent.train_net self = Returned self.
Proof.
  intros Hm. unfold PPOAgent.train_net.
  rewrite fold_epochs_fixpoint.
  - destruct self as [? ? ? ? ? ? [m] ? ? ?]. simpl in Hm. subst m. reflexivity.
  - unfold PPOAgent.train_epoch, DataBuffers.len. rewrite Hm. reflexivity.
Qed.

Lemma NoDup_range (n : nat) : NoDup (PPOAgent.range n).
Proof.
  unfold PPOAgent.range. apply (NoDup_fmap_2 Z.of_nat). apply NoDup_seq.
Qed.

(** When the handles of the store are exactly [0 .. n-1], an epoch of
    [train_net] is one gradient step after the other for the handles of
    [0 .. n-1] that have transitions, in increasing order; a handle is among
    them if and only if the store holds at least one transition for it. *)
Theorem contiguous_handles_all_trained (self : PPOAgent.t) (n : nat) :
  dom (DataBuffers.memory (PPOAgent.memory self))
  = list_to_set (PPOAgent.range n) ->
  PPOAgent.train_epoch self
  = steps_for
      (List.filter
         (fun handle =>
            (0 <? length (DataBuffers.get_transitions (PPOAgent.memory self)
                            handle))%nat)
         (PPOAgent.range n)) self
  /\ forall handle,
       In handle
         (List.filter
            (fun handle =>
               (0 <? length (DataBuffers.get_transitions (PPOAgent.memory self)
                               handle))%nat)
            (PPOAgent.range n))
       <-> exists tr l,
             DataBuffers.memory (PPOAgent.memory self) !! handle
             = Some (tr :: l).
Proof.
  intros Hdom.
  assert (Hlen : DataBuffers.len (PPOAgent.memory self) = n).
  { unfold DataBuffers.len. rewrite <- size_dom, Hdom.
    rewrite size_list_to_set by apply NoDup_range. apply length_range. }
  split.
  - rewrite train_epoch_steps. unfold epoch_handles. now rewrite Hlen.
  - intros handle. rewrite filter_In.
    rewrite <- list_elem_of_In, <- (elem_of_list_to_set (C := gset Z)), <- Hdom.
    rewrite elem_of_dom. unfold DataBuffers.get_transitions.
    split.
    + intros [[v Hv] Hne]. rewrite Hv in Hne |- *. simpl in Hne.
      destruct v as [|tr l]; [discriminate|]. eauto.
    + intros (tr & l & Hl). rewrite Hl. split; [eauto | reflexivity].
Qed.

End MoreTraining.

Section MoreTrainingWitnesses.

Lemma train_handle_without_transitions_witness :
  DataBuffers.get_transitions (PPOAgent.memory Toy.toy_agent) 3 = []
  /\ @PPOAgent.train_handle Toy.ToyTorch Toy.toy_agent 3
     = Returned Toy.toy_agent.
Proof.
  split; [reflexivity|].
  apply (@train_handle_without_transitions Toy.ToyTorch Toy.toy_agent 3).
  reflexivity.
Defined.

Lemma train_net_empty_store_witness :
  DataBuffers.memory (PPOAgent.memory Toy.toy_agent) = ∅
  /\ @PPOAgent.train_net Toy.ToyTorch Toy.toy_agent = Returned Toy.toy_agent.
Proof.
  split; [reflexivity|].
  apply (@train_net_empty_store Toy.ToyTorch Toy.toy_agent). reflexivity.
Defined.

(** The toy agent with the store of handles 0 and 1, handle 1 without
    transitions: the epoch is the gradient step for handle 0. *)
Lemma contiguous_handles_all_trained_witness :
  dom (DataBuffers.memory
         (PPOAgent.memory (PPOAgent.set_memory Toy.toy_agent Toy.toy_store)))
  = list_to_set (PPOAgent.range 2)
  /\ @PPOAgent.train_epoch Toy.ToyTorch
       (PPOAgent.set_memory Toy.toy_agent Toy.toy_store)
     = @steps_for Toy.ToyTorch [0%Z]
         (PPOAgent.set_memory Toy.toy_agent Toy.toy_store)
  /\ (In 1%Z [0%Z]
      <-> exists tr l,
            DataBuffers.memory Toy.toy_store !! 1%Z = Some (tr :: l)).
Proof.
  assert (Hdom : dom (DataBuffers.memory
                        (PPOAgent.memory
                           (PPOAgent.set_memory Toy.toy_agent Toy.toy_store)))
                 = list_to_set (PPOAgent.range 2)) by reflexivity.
  destruct (@contiguous_handles_all_trained Toy.ToyTorch
              (PPOAgent.set_memory Toy.toy_agent Toy.toy_store) 2 Hdom)
    as [Hepoch Hiff].
  split; [exact Hdom|]. split; [exact Hepoch | exact (Hiff 1%Z)].
Defined.

End MoreTrainingWitnesses.

(** ** More on checkpoints *)

Section MoreCheckpoints.
Context `{Torch}.

Lemma ac_load_one_frame {O : Type} `{!HasStateDict O} (obj : O)
    (filename : string) (w : World) :
  fs (snd (ActorCriticModel._load obj filename w)) = fs w
  /\ rng (snd (ActorCriticModel._load obj filename w)) = rng w.
Proof.
  unfold ActorCriticModel._load.
  destruct (fs w !! filename) as [blob|]; [|split; reflexivity].
  destruct (torch_load blob) as [sd|]; [|split; reflexivity].
  destruct (load_state_dict obj sd); split; reflexivity.
Qed.

Lemma ac_load_frame (self : ActorCriticModel.t) (filename : string)
    (w : World) :
  fs (snd (ActorCriticModel.load self filename w)) = fs w
  /\ rng (snd (ActorCriticModel.load self filename w)) = rng w.
Proof.
  unfold ActorCriticModel.load.
  pose proof (ac_load_one_frame (ActorCriticModel.actor self)
                (filename +:+ ".actor")
                (print ("load policy from file " +:+ filename) w)) as [Hf1 Hr1].
  destruct (ActorCriticModel._load (ActorCriticModel.actor self) _ _) as [a w1].
  pose proof (ac_load_one_frame (ActorCriticModel.critic self)
                (filename +:+ ".critic") w1) as [Hf2 Hr2].
  destruct (ActorCriticModel._load (ActorCriticModel.critic self) _ _) as [c w2].
  simpl in *. split; congruence.
Qed.

Lemma ppo_load_frame (self : PPOAgent.t) (filename : string) (w : World) :
  fs (snd (PPOAgent.load self filename w)) = fs w
  /\ rng (snd (PPOAgent.load self filename w)) = rng w.
Proof.
  unfold PPOAgent.load.
  pose proof (ac_load_frame (PPOAgent.actor_critic_model self) filename
                (print ("load policy from file " +:+ filename) w)) as [Hf1 Hr1].
  destruct (ActorCriticModel.load _ _ _) as [m w1].
  pose proof (ac_load_one_frame (PPOAgent.optimizer self)
                (filename +:+ ".optimizer")
                (print ("load optimizer from file " +:+ filename) w1))
    as [Hf2 Hr2].
  change (PPOAgent._load (PPOAgent.optimizer self) (filename +:+ ".optimizer")
            (print ("load optimizer from file " +:+ filename) w1))
    with (ActorCriticModel._load (PPOAgent.optimizer self)
            (filename +:+ ".optimizer")
            (print ("load optimizer from file " +:+ filename) w1)).
  destruct (ActorCriticModel._load (PPOAgent.optimizer self) _ _) as [o w2].
  simpl in *. split; congruence.
Qed.

(** What the operations leave alone: [load] writes no file and draws no
    random number; [save] prints nothing and draws no random number; [act]
    touches neither files nor console. *)
Theorem checkpoint_and_act_frames (self : PPOAgent.t) (filename : string)
    (state : list Q) (eps : option Q) (w : World) :
  fs (snd (PPOAgent.load self filename w)) = fs w
  /\ rng (snd (PPOAgent.load self filename w)) = rng w
  /\ console (PPOAgent.save self filename w) = console w
  /\ rng (PPOAgent.save self filename w) = rng w
  /\ fs (snd (PPOAgent.act self state eps w)) = fs w
  /\ console (snd (PPOAgent.act self state eps w)) = console w.
Proof.
  destruct (ppo_load_frame self filename w) as [Hf Hr].
  split; [exact Hf|]. split; [exact Hr|].
  split; [reflexivity|]. split; [reflexivity|].
  unfold PPOAgent.act. destruct (dist_sample _ (rng w)). split; reflexivity.
Qed.

(** [load] replaces networks and optimiser only: the store, the loss and the
    hyperparameters are as before. *)
Theorem load_keeps_store_and_hyperparameters (self : PPOAgent.t)
    (filename : string) (w : World) :
  PPOAgent.memory (fst (PPOAgent.load self filename w)) = PPOAgent.memory self
  /\ PPOAgent.loss (fst (PPOAgent.load self filename w)) = PPOAgent.loss self
  /\ hyperparameters (fst (PPOAgent.load self filename w))
     = hyperparameters self.
Proof.
  unfold PPOAgent.load.
  destruct (ActorCriticModel.load _ _ _) as [m w1].
  destruct (PPOAgent._load _ _ _) as [o w2]. repeat split.
Qed.

(** With none of the three files present, [load] returns the agent as it
    was and prints its three announcements and nothing else; the
    announcement of the policy is printed twice, once by [PPOAgent.load] and
    once by [ActorCriticModel.load]. *)
Theorem load_without_files (self : PPOAgent.t) (filename : string)
    (w : World) :
  fs w !! (filename +:+ ".actor") = None ->
  fs w !! (filename +:+ ".critic") = None ->
  fs w !! (filename +:+ ".optimizer") = None ->
  PPOAgent.load self filename w
  = (self,
     print ("load optimizer from file " +:+ filename)
       (print ("load policy from file " +:+ filename)
          (print ("load policy from file " +:+ filename) w))).
Proof.
  intros Ha Hc Ho. unfold PPOAgent.load, ActorCriticModel.load.
  rewrite (ac_load_one_missing (ActorCriticModel.actor _)) by exact Ha.
  rewrite (ac_load_one_missing (ActorCriticModel.critic _)) by exact Hc.
  unfold PPOAgent._load. simpl fs. rewrite Ho.
  destruct self as [? ? ? ? ? ? ? ? [a c] ?]. reflexivity.
Qed.

(** The three artifacts are restored independently: whatever the other two
    files hold, a missing [.actor] leaves the actor as it was, a missing
    [.critic] the critic, a missing [.optimizer] the optimiser. *)
Theorem load_restores_independently (self : PPOAgent.t) (filename : string)
    (w : World) :
  (fs w !! (filename +:+ ".actor") = None ->
   ActorCriticModel.actor
     (PPOAgent.actor_critic_model (fst (PPOAgent.load self filename w)))
   = ActorCriticModel.actor (PPOAgent.actor_critic_model self))
  /\ (fs w !! (filename +:+ ".critic") = None ->
      ActorCriticModel.critic
        (PPOAgent.actor_critic_model (fst (PPOAgent.load self filename w)))
      = ActorCriticModel.critic (PPOAgent.actor_critic_model self))
  /\ (fs w !! (filename +:+ ".optimizer") = None ->
      PPOAgent.optimizer (fst (PPOAgent.load self filename w))
      = PPOAgent.optimizer self).
Proof.
  split; [|split].
  - intros Ha. rewrite ppo_load_model, ac_load_actor.
    now rewrite ac_load_one_missing.
  - intros Hc. rewrite ppo_load_model. unfold ActorCriticModel.load.
    pose proof (ac_load_one_fs (ActorCriticModel.actor
                                  (PPOAgent.actor_critic_model self))
                  (filename +:+ ".actor")
                  (print ("load policy from file " +:+ filename)
                     (print ("load policy from file " +:+ filename) w)))
      as Hfs.
    destruct (ActorCriticModel._load (ActorCriticModel.actor _) _ _) as [a w1].
    simpl in Hfs.
    rewrite (ac_load_one_missing (ActorCriticModel.critic _)) by congruence.
    reflexivity.
  - intros Ho. unfold PPOAgent.load.
    pose proof (ac_load_frame (PPOAgent.actor_critic_model self) filename
                  (print ("load policy from file " +:+ filename) w))
      as [Hfs _].
    destruct (ActorCriticModel.load _ _ _) as [m w1]. simpl in Hfs.
    unfold PPOAgent._load. simpl fs. rewrite Hfs, Ho. reflexivity.
Qed.

(** A second [save] under the same base path replaces the first one's files:
    the files are those of the second [save] alone. *)
Theorem save_overwrites (first second : PPOAgent.t) (filename : string)
    (w : World) :
  fs (PPOAgent.save second filename (PPOAgent.save first filename w))
  = fs (PPOAgent.save second filename w).
Proof.
  rewrite !save_fs. apply map_eq. intros path.
  rewrite !lookup_insert. repeat case_decide; reflexivity.
Qed.

(** [save] then [load] of the same base path hands the saved optimiser state
    to the loader's optimiser: the loaded optimiser is whatever
    [load_state_dict] makes of it. *)
Theorem save_then_load_optimizer (saved loader : PPOAgent.t)
    (filename : string) (w : World) :
  (forall sd, torch_load (torch_save sd) = Some sd) ->
  PPOAgent.optimizer
    (fst (PPOAgent.load loader filename (PPOAgent.save saved filename w)))
  = outcome_obj
      (opt_load_state_dict (PPOAgent.optimizer loader)
         (opt_state_dict (PPOAgent.optimizer saved))).
Proof.
  intros Hlaw. unfold PPOAgent.load.
  pose proof (ac_load_frame (PPOAgent.actor_critic_model loader) filename
                (print ("load policy from file " +:+ filename)
                   (PPOAgent.save saved filename w))) as [Hfs _].
  destruct (ActorCriticModel.load _ _ _) as [m w1].
  cbn [snd] in Hfs. rewrite print_fs in Hfs.
  unfold PPOAgent._load. rewrite print_fs, Hfs, save_fs, lookup_insert_eq, Hlaw.
  simpl. destruct (opt_load_state_dict _ _); reflexivity.
Qed.

End MoreCheckpoints.

Section MoreCheckpointsWitnesses.

Lemma load_without_files_witness :
  fs Toy.toy_world !! ("ckpt" +:+ ".actor") = None
  /\ fs Toy.toy_world !! ("ckpt" +:+ ".critic") = None
  /\ fs Toy.toy_world !! ("ckpt" +:+ ".optimizer") = None
  /\ @PPOAgent.load Toy.ToyTorch (Toy.toy_trained 0) "ckpt" Toy.toy_world
     = (Toy.toy_trained 0,
        @mkWorld Toy.ToyTorch ∅
          ["load policy from file ckpt"; "load policy from file ckpt";
           "load optimizer from file ckpt"]
          0%nat).
Proof.
  split; [reflexivity|]. split; [reflexivity|]. split; [reflexivity|].
  apply (@load_without_files Toy.ToyTorch (Toy.toy_trained 0) "ckpt"
           Toy.toy_world); reflexivity.
Defined.

(** In a world whose only file is [ckpt.critic] the critic is loaded (weights
    9) while actor and optimiser stay; in the empty world the critic stays. *)
Lemma load_restores_independently_witness :
  fs Toy.toy_critic_world !! ("ckpt" +:+ ".actor") = None
  /\ fs Toy.toy_critic_world !! ("ckpt" +:+ ".optimizer") = None
  /\ fs Toy.toy_world !! ("ckpt" +:+ ".critic") = None
  /\ ActorCriticModel.actor
       (PPOAgent.actor_critic_model
          (fst (@PPOAgent.load Toy.ToyTorch Toy.toy_agent "ckpt"
                  Toy.toy_critic_world)))
     = ActorCriticModel.actor (PPOAgent.actor_critic_model Toy.toy_agent)
  /\ PPOAgent.optimizer
       (fst (@PPOAgent.load Toy.ToyTorch Toy.toy_agent "ckpt"
               Toy.toy_critic_world))
     = PPOAgent.optimizer Toy.toy_agent
  /\ ActorCriticModel.critic
       (PPOAgent.actor_critic_model
          (fst (@PPOAgent.load Toy.ToyTorch Toy.toy_agent "ckpt" Toy.toy_world)))
     = ActorCriticModel.critic (PPOAgent.actor_critic_model Toy.toy_agent)
  /\ snd (ActorCriticModel.critic
            (PPOAgent.actor_critic_model
               (fst (@PPOAgent.load Toy.ToyTorch Toy.toy_agent "ckpt"
                       Toy.toy_critic_world)))) = 9%Z.
Proof.
  destruct (@load_restores_independently Toy.ToyTorch Toy.toy_agent "ckpt"
              Toy.toy_critic_world) as (Hactor & _ & Hopt).
  destruct (@load_restores_independently Toy.ToyTorch Toy.toy_agent "ckpt"
              Toy.toy_world) as (_ & Hcritic & _).
  split; [reflexivity|]. split; [reflexivity|]. split; [reflexivity|].
  split; [apply Hactor; reflexivity|]. split; [apply Hopt; reflexivity|].
  split; [apply Hcritic; reflexivity | reflexivity].
Defined.

(** The toy agent trained once (30 optimiser steps), saved and loaded into a
    fresh toy agent: the fresh agent's optimiser has the 30 steps. *)
Lemma save_then_load_optimizer_witness :
  (forall sd, @torch_load Toy.ToyTorch (torch_save sd) = Some sd)
  /\ PPOAgent.optimizer
       (fst (@PPOAgent.load Toy.ToyTorch Toy.toy_agent "ckpt"
               (PPOAgent.save (Toy.toy_trained 0) "ckpt" Toy.toy_world)))
     = 30%Z.
Proof.
  split; [reflexivity|].
  exact (@save_then_load_optimizer Toy.ToyTorch (Toy.toy_trained 0)
           Toy.toy_agent "ckpt" Toy.toy_world (fun sd => eq_refl)).
Defined.

End MoreCheckpointsWitnesses.

(** ** More on the composition layer *)

Section MoreComposition.
Context {W A P : Type} `{!Policy W A} `{!Policy W P}.

(** The augmentation goes by the length of the state it is given, not by the
    field [state_size]: the result is the state followed by [action_size]
    entries, the entry at [i] being 1 exactly when [i] is the advisor's
    action. *)
Theorem extend_state_shape (n : nat) (state : list Q) (a : Z) :
  length (MultiPolicy.extend_state n state a) = (length state + n)%nat
  /\ take (length state) (MultiPolicy.extend_state n state a) = state
  /\ forall i, (i < n)%nat ->
       MultiPolicy.extend_state n state a !! (length state + i)%nat
       = Some (if decide (Z.of_nat i = a) then 1%Q else 0%Q).
Proof.
  rewrite extend_state_one_hot. split; [|split].
  - now rewrite length_app, length_one_hot.
  - now rewrite take_app_length.
  - intros i Hi. rewrite lookup_app_r by lia.
    replace (length state + i - length state)%nat with i by lia.
    now apply one_hot_lookup.
Qed.

(** An advisor action outside [0, action_size) leaves no 1: the appended
    entries are all 0. *)
Theorem extend_state_out_of_range (n : nat) (state : list Q) (a : Z) :
  (a < 0 \/ Z.of_nat n <= a)%Z ->
  MultiPolicy.extend_state n state a = state ++ replicate n 0%Q.
Proof.
  intros Ha. rewrite extend_state_one_hot. f_equal.
  apply list_eq. intros i. destruct (decide (i < n)%nat) as [Hi|Hi].
  - rewrite one_hot_lookup by exact Hi. rewrite decide_False by lia.
    symmetry. now apply lookup_replicate_2.
  - rewrite !lookup_ge_None_2; [reflexivity | |].
    + rewrite length_replicate. lia.
    + rewrite length_one_hot. lia.
Qed.

(** [act] returns the PPO core's action at the augmented state, asked with
    the caller's exploration rate in the world the advisor's [act] left; the
    advisor itself is asked with exploration 0.  The loss field is read from
    the PPO core after its [act]. *)
Theorem act_returns_ppo_action (self : @MultiPolicy.t A P) (handle : Z)
    (state : list Q) (eps : Q) (w : W) :
  let advisor :=
    p_act (MultiPolicy.deadlock_avoidance_policy self) handle state 0%Q w in
  let ppo :=
    p_act (MultiPolicy.ppo_policy self) handle
      (MultiPolicy.extend_state (MultiPolicy.action_size self) state
         (fst (fst advisor)))
      eps (snd advisor) in
  fst (fst (MultiPolicy.act self handle state eps w)) = fst (fst ppo)
  /\ snd (MultiPolicy.act self handle state eps w) = snd ppo
  /\ MultiPolicy.loss (snd (fst (MultiPolicy.act self handle state eps w)))
     = p_loss (MultiPolicy.ppo_policy
                 (snd (fst (MultiPolicy.act self handle state eps w)))).
Proof.
  unfold MultiPolicy.act.
  destruct (p_act (MultiPolicy.deadlock_avoidance_policy self) handle state 0%Q w)
    as [[a d] w1]. simpl.
  destruct (p_act (MultiPolicy.ppo_policy self) handle _ eps w1)
    as [[action_ppo p] w2]. repeat split.
Qed.

(** [step] asks the advisor at the state and then at the next state, both
    with exploration 0, then calls the advisor's [step] with the raw
    transition and last the PPO core's [step] with the transition whose two
    states are each followed by the one-hot vector of the advisor's answer
    for it; every call runs in the world the call before it left, and the
    layer keeps the sub-policies as the two [step] calls return them. *)
Theorem step_calls (self : @MultiPolicy.t A P) (handle : Z) (state : list Q)
    (action : Z) (reward : Q) (next_state : list Q) (done : bool) (w : W) :
  let first :=
    p_act (MultiPolicy.deadlock_avoidance_policy self) handle state 0%Q w in
  let second := p_act (snd (fst first)) handle next_state 0%Q (snd first) in
  let advisor :=
    p_step (snd (fst second)) handle state action reward next_state done
      (snd second) in
  let ppo :=
    p_step (MultiPolicy.ppo_policy self) handle
      (state ++ one_hot (MultiPolicy.action_size self) (fst (fst first)))
      action reward
      (next_state ++ one_hot (MultiPolicy.action_size self) (fst (fst second)))
      done (snd advisor) in
  MultiPolicy.deadlock_avoidance_policy
    (fst (MultiPolicy.step self handle state action reward next_state done w))
  = fst advisor
  /\ MultiPolicy.ppo_policy
       (fst (MultiPolicy.step self handle state action reward next_state done w))
     = fst ppo
  /\ snd (MultiPolicy.step self handle state action reward next_state done w)
     = snd ppo.
Proof.
  cbv zeta. unfold MultiPolicy.step.
  destruct (p_act (MultiPolicy.deadlock_avoidance_policy self) handle state 0%Q w)
    as [[a1 d1] w1]. simpl.
  destruct (p_act d1 handle next_state 0%Q w1) as [[a2 d2] w2]. simpl.
  destruct (p_step d2 handle state action reward next_state done w2) as [d3 w3].
  simpl. rewrite !extend_state_one_hot.
  destruct (p_step (MultiPolicy.ppo_policy self) handle _ action reward _ done w3)
    as [p w4].
  repeat split.
Qed.

(** No method but [act] changes the layer's own fields (sizes, the unused
    [memory] list, the loss). *)
Theorem broadcasts_keep_own_fields (self : @MultiPolicy.t A P)
    (filename : string) (train : bool) (handle : Z) (state : list Q)
    (action : Z) (reward : Q) (next_state : list Q) (done : bool) (w : W) :
  own_fields (fst (MultiPolicy.load self filename w)) = own_fields self
  /\ own_fields (fst (MultiPolicy.save self filename w)) = own_fields self
  /\ own_fields (fst (MultiPolicy.reset self w)) = own_fields self
  /\ own_fields (fst (MultiPolicy.test self w)) = own_fields self
  /\ own_fields (fst (MultiPolicy.start_step self train w)) = own_fields self
  /\ own_fields (fst (MultiPolicy.end_step self train w)) = own_fields self
  /\ own_fields
       (fst (MultiPolicy.step self handle state action reward next_state
               done w))
     = own_fields self.
Proof.
  repeat split.
  - unfold MultiPolicy.load.
    destruct (p_load (MultiPolicy.ppo_policy self) filename w) as [p w1].
    now destruct (p_load (MultiPolicy.deadlock_avoidance_policy self) filename w1).
  - unfold MultiPolicy.save.
    destruct (p_save (MultiPolicy.ppo_policy self) filename w) as [p w1].
    now destruct (p_save (MultiPolicy.deadlock_avoidance_policy self) filename w1).
  - unfold MultiPolicy.reset.
    destruct (p_reset (MultiPolicy.ppo_policy self) w) as [p w1].
    now destruct (p_reset (MultiPolicy.deadlock_avoidance_policy self) w1).
  - unfold MultiPolicy.test.
    destruct (p_test (MultiPolicy.ppo_policy self) w) as [p w1].
    now destruct (p_test (MultiPolicy.deadlock_avoidance_policy self) w1).
  - unfold MultiPolicy.start_step.
    destruct (p_start_step (MultiPolicy.deadlock_avoidance_policy self) train w)
      as [d w1].
    now destruct (p_start_step (MultiPolicy.ppo_policy self) train w1).
  - unfold MultiPolicy.end_step.
    destruct (p_end_step (MultiPolicy.deadlock_avoidance_policy self) train w)
      as [d w1].
    now destruct (p_end_step (MultiPolicy.ppo_policy self) train w1).
  - unfold MultiPolicy.step.
    destruct (p_act (MultiPolicy.deadlock_avoidance_policy self) handle state
                0%Q w) as [[a1 d1] w1].
    destruct (p_act d1 handle next_state 0%Q w1) as [[a2 d2] w2].
    destruct (p_step d2 handle state action reward next_state done w2)
      as [d3 w3].
    now destruct (p_step (MultiPolicy.ppo_policy self) handle _ action reward _
                    done w3).
Qed.

End MoreComposition.

Section MoreCompositionWitnesses.

Lemma extend_state_out_of_range_witness :
  (7 < 0 \/ Z.of_nat 2 <= 7)%Z
  /\ MultiPolicy.extend_state 2 [1; 2; 3; 4]%Q 7 = [1; 2; 3; 4; 0; 0]%Q.
Proof.
  split; [right; simpl; lia|].
  apply (extend_state_out_of_range 2 [1; 2; 3; 4]%Q 7). right. simpl. lia.
Defined.

End MoreCompositionWitnesses.
